(** * Coffee controller firmware (main.py): schedule engine, serial protocol
    client and control server, embedded from the MicroPython source. *)

From Stdlib Require Import ZArith QArith List String Ascii Bool Lia.
From Stdlib Require Import DecimalString.
Import ListNotations.

Open Scope Z_scope.

(** ** Configuration constants of main.py *)

Definition WIFI_START_HOUR : Z := 5.
Definition WIFI_END_HOUR : Z := 8.
Definition BASE_TIMEZONE_OFFSET : Z := -8.

(** ** The [time] module

    [time.localtime()] yields an 8-tuple; index 3 is the hour and index 6
    the weekday (0 = Monday .. 6 = Sunday). *)

Record struct_time : Type := mk_time {
  tm_year : Z; tm_mon : Z; tm_mday : Z;
  tm_hour : Z; tm_min : Z; tm_sec : Z;
  tm_wday : Z; tm_yday : Z
}.

Module Time.

(** Days between 1970-01-01 and the given civil date (proleptic Gregorian
    calendar, March-based years). *)
Definition days_from_civil (y m d : Z) : Z :=
  let y' := if m <=? 2 then y - 1 else y in
  let era := y' / 400 in
  let yoe := y' - era * 400 in
  let mp := if 2 <? m then m - 3 else m + 9 in
  let doy := (153 * mp + 2) / 5 + d - 1 in
  let doe := yoe * 365 + yoe / 4 - yoe / 100 + doy in
  era * 146097 + doe - 719468.

(** The port counts seconds from 2000-01-01, which is day 10957 of the
    Unix era. *)
Definition EPOCH_DAYS : Z := 10957.

(** [time.mktime((year, month, mday, hour, minute, second, _, _))]. *)
Definition mktime (y m d hh mm ss : Z) : Z :=
  (days_from_civil y m d - EPOCH_DAYS) * 86400 + hh * 3600 + mm * 60 + ss.

(** [time.localtime(secs)[6]]: 2000-01-01 was a Saturday (5). *)
Definition localtime_wday (secs : Z) : Z := (secs / 86400 + 5) mod 7.

(** Weekday of a civil date, as [localtime(mktime(...))[6]] gives it. *)
Definition weekday (y m d : Z) : Z := localtime_wday (mktime y m d 0 0 0).

End Time.

(** ** Daylight saving time *)

(** [get_nth_weekday_of_month(year, month, weekday, n)] *)
Definition get_nth_weekday_of_month (year month weekday n : Z) : Z :=
  let first_day := Time.mktime year month 1 0 0 0 in
  let first_weekday := Time.localtime_wday first_day in
  let days_until_weekday := (weekday - first_weekday) mod 7 in
  let target_day := 1 + days_until_weekday + (n - 1) * 7 in
  target_day.

(** [is_dst(year, month, day)] *)
Definition is_dst (year month day : Z) : bool :=
  let dst_start_day := get_nth_weekday_of_month year 3 6 2 in
  let dst_end_day := get_nth_weekday_of_month year 11 6 1 in
  if (month <? 3) || (11 <? month) then false
  else if (3 <? month) && (month <? 11) then true
  else if month =? 3 then dst_start_day <=? day
  else day <? dst_end_day.

(** [get_timezone_offset()], with the base offset and the clock reading
    [time.localtime()] made inside it as arguments. *)
Definition timezone_offset_from (base : Z) (utc_time : struct_time) : Z :=
  let year := tm_year utc_time in
  let month := tm_mon utc_time in
  let day := tm_mday utc_time in
  if is_dst year month day then base + 1 else base.

Definition get_timezone_offset (utc_time : struct_time) : Z :=
  timezone_offset_from BASE_TIMEZONE_OFFSET utc_time.

(** ** Time management *)

(** [get_local_hour()] reads the clock itself ([utc_time]) and then calls
    [get_timezone_offset()], which reads it a second time ([utc_time']). *)
Definition local_hour_from (base : Z) (utc_time utc_time' : struct_time) : Z :=
  let offset := timezone_offset_from base utc_time' in
  let local_hour := (tm_hour utc_time + offset) mod 24 in
  local_hour.

Definition get_local_hour (utc_time utc_time' : struct_time) : Z :=
  local_hour_from BASE_TIMEZONE_OFFSET utc_time utc_time'.

(** The window test of [is_wifi_hours()], for a window [start_hour],
    [end_hour] and a local hour. *)
Definition in_hours (start_hour end_hour hour : Z) : bool :=
  if end_hour <=? start_hour
  then (start_hour <=? hour) || (hour <? end_hour)
  else (start_hour <=? hour) && (hour <? end_hour).

(** [is_wifi_hours()] *)
Definition is_wifi_hours (utc_time utc_time' : struct_time) : bool :=
  let hour := get_local_hour utc_time utc_time' in
  in_hours WIFI_START_HOUR WIFI_END_HOUR hour.

(** ** Python text operations used by the firmware

    Text is a [string] of characters; the operations below follow the
    behaviour of the corresponding [str] methods. *)

Open Scope string_scope.

Definition CR : ascii := ascii_of_nat 13.
Definition LF : ascii := ascii_of_nat 10.
Definition CRLF : string := String CR (String LF "").
Definition CRLFCRLF : string := CRLF ++ CRLF.

(** Characters removed by [str.strip()]: space, tab, newline, vertical
    tab, form feed and carriage return. *)
Definition is_space (c : ascii) : bool :=
  let n := nat_of_ascii c in
  (n =? 32)%nat || ((9 <=? n)%nat && (n <=? 13)%nat).

Fixpoint lstrip (s : string) : string :=
  match s with
  | "" => ""
  | String c s' => if is_space c then lstrip s' else s
  end.

Fixpoint rstrip (s : string) : string :=
  match s with
  | "" => ""
  | String c s' =>
      match rstrip s' with
      | "" => if is_space c then "" else String c ""
      | r => String c r
      end
  end.

(** [s.strip()] *)
Definition strip (s : string) : string := rstrip (lstrip s).

(** [s.startswith(p)] *)
Definition startswith (s p : string) : bool := prefix p s.

(** [s.split(sep)] for a non-empty separator: a left-to-right scan that
    cuts at every non-overlapping occurrence of [sep].  [skip] counts the
    characters of a separator still to be passed over, [cur] holds the
    current field reversed. *)
Fixpoint split_scan (sep : string) (skip : nat) (cur : list ascii)
    (s : string) : list string :=
  match s with
  | "" => [string_of_list_ascii (rev cur)]
  | String c s' =>
      match skip with
      | S k => split_scan sep k cur s'
      | O =>
          if prefix sep s
          then string_of_list_ascii (rev cur)
               :: split_scan sep (String.length sep - 1) [] s'
          else split_scan sep 0 (c :: cur) s'
      end
  end.

Definition split (sep s : string) : list string := split_scan sep 0 [] s.

(** [s.replace(old, new)] for a non-empty [old]. *)
Fixpoint replace_scan (old new : string) (skip : nat) (s : string) : string :=
  match s with
  | "" => ""
  | String c s' =>
      match skip with
      | S k => replace_scan old new k s'
      | O =>
          if prefix old s
          then new ++ replace_scan old new (String.length old - 1) s'
          else String c (replace_scan old new 0 s')
      end
  end.

Definition replace (old new s : string) : string := replace_scan old new 0 s.

(** [s.find(sub)]: index of the first occurrence, or -1. *)
Fixpoint find_from (sub s : string) (i : Z) : Z :=
  if prefix sub s then i
  else match s with
       | "" => -1
       | String _ s' => find_from sub s' (i + 1)
       end.

Definition find (s sub : string) : Z := find_from sub s 0.

(** [s[k:]] for [k >= 0]. *)
Fixpoint drop (k : nat) (s : string) : string :=
  match k, s with
  | O, _ => s
  | S k', String _ s' => drop k' s'
  | S _, "" => ""
  end.

Definition slice_from (s : string) (k : Z) : string := drop (Z.to_nat k) s.

(** ** Numbers from text: the built-ins [int(s)] and [float(s)]

    Both raise [ValueError] on text that is not a number; the model returns
    [None] there.  A float is kept as the rational its decimal text denotes
    (or one of the special values); rounding to the machine format is
    outside the model, and so are digit-group underscores. *)

Definition digit_value (c : ascii) : option Z :=
  let n := nat_of_ascii c in
  if (48 <=? n)%nat && (n <=? 57)%nat then Some (Z.of_nat (n - 48)) else None.

(** The longest run of decimal digits at the head of [s]: the value
    accumulated onto [acc], the number of digits read, and the rest. *)
Fixpoint digits (acc : Z) (count : nat) (s : string) : Z * nat * string :=
  match s with
  | "" => (acc, count, "")
  | String c s' =>
      match digit_value c with
      | Some d => digits (acc * 10 + d) (S count) s'
      | None => (acc, count, s)
      end
  end.

(** An optional leading sign: is it negative, and the rest. *)
Definition sign_of (s : string) : bool * string :=
  match s with
  | String "-" s' => (true, s')
  | String "+" s' => (false, s')
  | _ => (false, s)
  end.

Definition signed (neg : bool) (v : Z) : Z := if neg then - v else v.

(** A complete signed run of at least one digit. *)
Definition signed_digits (s : string) : option Z :=
  let (neg, body) := sign_of s in
  match digits 0 0 body with
  | (v, S _, "") => Some (signed neg v)
  | _ => None
  end.

(** [int(s)] in base 10 *)
Definition py_int (s : string) : option Z := signed_digits (strip s).

Inductive pyfloat : Type :=
| Finite (q : Q)
| Infinite (negative : bool)
| NaN.

(** The float written [m]e[e] in decimal, e.g. [decimal 934 (-1)] for 93.4. *)
Definition decimal (m e : Z) : pyfloat :=
  Finite (Qred (if (0 <=? e)%Z then inject_Z (m * 10 ^ e)
                else Qmake m (Z.to_pos (10 ^ (- e))))).

Definition lower (c : ascii) : ascii :=
  let n := nat_of_ascii c in
  if (65 <=? n)%nat && (n <=? 90)%nat then ascii_of_nat (n + 32) else c.

Fixpoint lowercase (s : string) : string :=
  match s with
  | "" => ""
  | String c s' => String (lower c) (lowercase s')
  end.

(** The optional exponent part that ends a float. *)
Definition exponent (s : string) : option Z :=
  match s with
  | "" => Some 0
  | String c s' =>
      if ((c =? "e") || (c =? "E"))%char then signed_digits s' else None
  end.

(** [float(s)] *)
Definition py_float (s : string) : option pyfloat :=
  let (neg, body) := sign_of (strip s) in
  let name := lowercase body in
  if (name =? "inf") || (name =? "infinity") then Some (Infinite neg)
  else if name =? "nan" then Some NaN
  else
    let '(ip, n1, r1) := digits 0 0 body in
    let '(m, n2, r2) :=
      match r1 with
      | String "." r => digits ip 0 r
      | _ => (ip, O, r1)
      end in
    match (n1 + n2)%nat with
    | O => None
    | _ =>
        match exponent r2 with
        | Some e => Some (decimal (signed neg m) (e - Z.of_nat n2))
        | None => None
        end
    end.

(** ** UART communication: results and their parsing *)

(** The dict built by [send_command]: keys ['success'], ['response'] and
    ['error']. *)
Record result : Type := mk_result {
  success : bool;
  response : list string;
  error : option string
}.

(** *** The serial port

    Bytes and text share the type [string]: text is held in its UTF-8
    encoding, so [encode] is the identity and [decode] only checks
    well-formedness. *)

(** The port's UTF-8 check: [need] continuation bytes are still owed. *)
Fixpoint utf8_check (need : nat) (s : string) : bool :=
  match s with
  | "" => (need =? 0)%nat
  | String c s' =>
      let n := nat_of_ascii c in
      match need with
      | S k => if (128 <=? n)%nat && (n <? 192)%nat then utf8_check k s' else false
      | O =>
          if (192 <=? n)%nat then
            if (248 <=? n)%nat then false
            else utf8_check (if (n <? 224)%nat then 1
                             else if (n <? 240)%nat then 2 else 3)%nat s'
          else if (128 <=? n)%nat then false
          else utf8_check 0 s'
      end
  end.

(** [line.decode('utf-8')]: [None] stands for the [UnicodeDecodeError]. *)
Definition decode (line : string) : option string :=
  if utf8_check 0 line then Some line else None.

(** Operations performed on the port, as recorded in its log. *)
Inductive uart_op : Type :=
| OpAny (unread : nat)
| OpRead (data : string)
| OpReadline (data : string)
| OpWrite (data : string) (written : nat).

(** The port and its environment.  [rx] holds the bytes received and not
    yet read; [wire] lists what the remote controller sends next, one
    chunk arriving before each poll of the port; [room] bounds the bytes
    one write accepts ([None]: no bound); [log] records the operations,
    newest first.  The driver's methods return normally. *)
Record uart : Type := mk_uart {
  rx : string;
  wire : list string;
  room : option nat;
  log : list uart_op
}.

(** State passing over the port; [None] is a loop that ran out of fuel. *)
Definition M (A : Type) : Type := uart -> option (A * uart).

Definition ret {A : Type} (a : A) : M A := fun u => Some (a, u).

Definition bind {A B : Type} (m : M A) (f : A -> M B) : M B :=
  fun u => match m u with
           | Some (a, u') => f a u'
           | None => None
           end.

Notation "x <- m ;; k" := (bind m (fun x => k))
  (at level 61, m at next level, right associativity).
Notation "m ;; k" := (bind m (fun _ => k))
  (at level 61, right associativity).

Definition record (op : uart_op) (u : uart) : uart :=
  mk_uart (rx u) (wire u) (room u) (op :: log u).

(** The next chunk of the wire reaches the receive buffer. *)
Definition arrive (u : uart) : uart :=
  match wire u with
  | [] => u
  | c :: w => mk_uart (rx u ++ c) w (room u) (log u)
  end.

(** [uart.any()]: the number of unread bytes. *)
Definition uart_any : M nat :=
  fun u => let u' := arrive u in
           let n := String.length (rx u') in
           Some (n, record (OpAny n) u').

(** [uart.read()]: all unread bytes. *)
Definition uart_read : M string :=
  fun u => Some (rx u, record (OpRead (rx u)) (mk_uart "" (wire u) (room u) (log u))).

(** The unread bytes up to and including the first newline, and the rest. *)
Fixpoint cut_line (s : string) : string * string :=
  match s with
  | "" => ("", "")
  | String c s' =>
      if (c =? LF)%char then (String c "", s')
      else let (l, r) := cut_line s' in (String c l, r)
  end.

(** [uart.readline()]: a line ending in a newline, or what the buffer holds
    when the character timeout passes first; [None] on an empty buffer. *)
Definition uart_readline : M (option string) :=
  fun u => match rx u with
           | "" => Some (None, u)
           | _ => let (l, r) := cut_line (rx u) in
                  Some (Some l, record (OpReadline l) (mk_uart r (wire u) (room u) (log u)))
           end.

(** [uart.write(buf)]: the number of bytes written. *)
Definition uart_write (buf : string) : M nat :=
  fun u => let n := match room u with
                    | None => String.length buf
                    | Some k => Nat.min k (String.length buf)
                    end in
           Some (n, record (OpWrite buf n) u).

(** *** [send_command] *)

(** [while uart.any(): uart.read()] *)
Fixpoint clear_loop (fuel : nat) : M unit :=
  match fuel with
  | O => fun _ => None
  | S fuel' =>
      n <- uart_any ;;
      if (n =? 0)%nat then ret tt
      else _ <- uart_read ;; clear_loop fuel'
  end.

(** The wire is finite: after its last chunk the buffer is read once more
    at most, so this fuel lets the loop reach its exit. *)
Definition clear_buffer : M unit :=
  fun u => clear_loop (2 + List.length (wire u)) u.

Definition completion (decoded : string) : bool :=
  startswith decoded "<<OK" || startswith decoded "<<ERROR".

(** How the [try] block ends before [# Check results]: an early [return]
    with its error text, or the end of the read loop with [response_lines]
    and [found_completion]. *)
Inductive outcome : Type :=
| Failed (error_text : string)
| Collected (response_lines : list string) (found_completion : bool).

(** The read loop.  [polls] is the number of turns the loop makes before
    [time.time() - start_time < timeout] fails. *)
Fixpoint read_loop (polls : nat) (response_lines : list string) : M outcome :=
  match polls with
  | O => ret (Collected response_lines false)
  | S polls' =>
      n <- uart_any ;;
      if (n =? 0)%nat then read_loop polls' response_lines
      else
        line <- uart_readline ;;
        match line with
        | None | Some "" => read_loop polls' response_lines
        | Some line =>
            match decode line with
            | None => ret (Failed "Decode error: ")
            | Some text =>
                let decoded := strip text in
                let response_lines := (response_lines ++ [decoded])%list in
                if completion decoded then ret (Collected response_lines true)
                else read_loop polls' response_lines
            end
        end
  end.

Definition show_nat (n : nat) : string := NilZero.string_of_uint (Nat.to_uint n).

(** The [try] block of [send_command] up to the end of the read loop, for
    the stripped, non-empty command [cmd_clean]. *)
Definition transfer (cmd_clean : string) (polls : nat) : M outcome :=
  let cmd_bytes := cmd_clean ++ String LF "" in
  clear_buffer ;;
  bytes_written <- uart_write cmd_bytes ;;
  if negb (bytes_written =? String.length cmd_bytes)%nat then
    ret (Failed ("Write incomplete: " ++ show_nat bytes_written ++ "/"
                 ++ show_nat (String.length cmd_bytes) ++ " bytes"))
  else
    read_loop polls [].

Definition is_command_response (line : string) : bool :=
  startswith line "<<" || startswith line ">>".

Definition is_error_response (line : string) : bool :=
  startswith line "<<ERROR".

(** From [# Check results] to the final [return result]. *)
Definition check_results (response_lines : list string)
    (found_completion : bool) : result :=
  match response_lines with
  | [] => mk_result false [] (Some "No response received")
  | _ =>
      let command_response_lines :=
        filter is_command_response response_lines in
      let error0 :=
        if found_completion then None
        else Some "Response incomplete (timeout)" in
      let success0 := found_completion in
      let response0 :=
        match command_response_lines with
        | [] => response_lines
        | _ => command_response_lines
        end in
      match List.find is_error_response command_response_lines with
      | Some line => mk_result false response0 (Some line)
      | None => mk_result success0 response0 error0
      end
  end.

(** The result dict for each way the [try] block ends. *)
Definition result_of (out : outcome) : result :=
  match out with
  | Failed e => mk_result false [] (Some e)
  | Collected response_lines found_completion =>
      check_results response_lines found_completion
  end.

(** [send_command(cmd, timeout)] *)
Definition send_command (cmd : string) (polls : nat) : M result :=
  let cmd_clean := strip cmd in
  if cmd_clean =? "" then ret (mk_result false [] (Some "Empty command"))
  else
    out <- transfer cmd_clean polls ;;
    ret (result_of out).

(** The dict built by [parse_status]. *)
Record status : Type := mk_status {
  temperature : pyfloat;
  setpoint : pyfloat;
  duty_cycle : Z;
  state : string;
  raw : string
}.

(** [parts[i]], on a list already checked to be long enough. *)
Definition item (parts : list string) (i : nat) : string := nth i parts "".

(** Body of the [try] in the first loop of [parse_status]: [None] when the
    line has fewer than 5 fields or a conversion raises [ValueError]. *)
Definition status_fields (line : string) : option status :=
  let status_line := replace ">>" "" line in
  let parts := split "," status_line in
  if (5 <=? List.length parts)%nat then
    match py_float (item parts 1), py_float (item parts 2),
          py_int (item parts 3) with
    | Some t, Some sp, Some d =>
        Some (mk_status t sp d (item parts 4) line)
    | _, _, _ => None
    end
  else None.

(** One turn of the first loop of [parse_status]. *)
Definition old_format (line : string) : option status :=
  if startswith line ">>STATUS" || startswith line "STATUS"
  then status_fields line
  else None.

(** The first loop: the first line that yields a status. *)
Fixpoint first_old_format (response_lines : list string) : option status :=
  match response_lines with
  | [] => None
  | line :: rest =>
      match old_format line with
      | Some st => Some st
      | None => first_old_format rest
      end
  end.

(** The second attempt of [parse_status], on the last line. *)
Definition new_format (line : string) : option status :=
  let parts := split "," line in
  if (3 <=? List.length parts)%nat then
    match py_float (item parts 0), py_int (item parts 1),
          py_float (item parts 2) with
    | Some t, Some d, Some sp => Some (mk_status t sp d "unknown" line)
    | _, _, _ => None
    end
  else None.

(** [parse_status(response_dict)] *)
Definition parse_status (response_dict : result) : option status :=
  match response response_dict with
  | [] => None
  | response_lines =>
      match first_old_format response_lines with
      | Some st => Some st
      | None => new_format (last response_lines "")
      end
  end.

(** ** Web server *)

(** Values handed to [json.dumps].  A dict is listed in the order its
    literal is written. *)
#[local] Unset Elimination Schemes.
Inductive json : Type :=
| JNull
| JBool (b : bool)
| JInt (z : Z)
| JFloat (f : pyfloat)
| JStr (s : string)
| JList (items : list json)
| JDict (fields : list (string * json)).
#[local] Set Elimination Schemes.

(** What follows the header block: the HTML page (the constant [HTML]) or
    the text [json.dumps] makes of a value. *)
Inductive body : Type :=
| Page
| Json (j : json).

(** One response sent on the client socket: the header block, then the
    body. *)
Record reply : Type := mk_reply {
  head : string;
  content : body
}.

Definition HTML_HEAD : string :=
  "HTTP/1.1 200 OK" ++ CRLF
  ++ "Content-Type: text/html; charset=utf-8" ++ CRLF
  ++ "Connection: close" ++ CRLFCRLF.

Definition JSON_HEAD : string :=
  "HTTP/1.1 200 OK" ++ CRLF
  ++ "Content-Type: application/json; charset=utf-8" ++ CRLF
  ++ "Access-Control-Allow-Origin: *" ++ CRLF
  ++ "Connection: close" ++ CRLFCRLF.

(** The status dict of [parse_status] as a JSON value. *)
Definition status_json (st : status) : json :=
  JDict [("temperature", JFloat (temperature st));
         ("setpoint", JFloat (setpoint st));
         ("duty_cycle", JInt (duty_cycle st));
         ("state", JStr (state st));
         ("raw", JStr (raw st))].

(** The dict sent when [parse_status] gives [None]. *)
Definition no_status_json : json :=
  JDict [("temperature", JNull);
         ("setpoint", JInt 0);
         ("duty_cycle", JInt 0);
         ("state", JStr "unknown")].

(** The dict sent for [POST /cmd]. *)
Definition command_json (resp : result) : json :=
  JDict [("success", JBool (success resp));
         ("response", JList (map JStr (response resp)))].

(** Route dispatch of [web_server_scheduled] on the decoded request text:
    the replies sent to the client before the connection is closed.
    [polls] is the read-loop budget of the default [timeout=2.0]. *)
Definition handle_request (polls : nat) (request : string) : M (list reply) :=
  let lines := split CRLF request in
  match lines with
  | [] => ret []
  | request_line :: _ =>
      let parts := split " " request_line in
      if (2 <=? List.length parts)%nat then
        let method := item parts 0 in
        let path := item parts 1 in
        if (method =? "GET") && (path =? "/") then
          ret [mk_reply HTML_HEAD Page]
        else if (method =? "GET") && (path =? "/status") then
          resp <- send_command "status" polls ;;
          let status := parse_status resp in
          ret [mk_reply JSON_HEAD
                 (Json (match status with
                        | Some st => status_json st
                        | None => no_status_json
                        end))]
        else if (method =? "POST") && (path =? "/cmd") then
          let body_start := find request CRLFCRLF in
          if (body_start =? -1)%Z then ret []
          else
            let command := strip (slice_from request (body_start + 4)) in
            resp <- send_command command polls ;;
            ret [mk_reply JSON_HEAD (Json (command_json resp))]
        else ret []
      else ret []
  end.

(** One accepted connection: [received] is what [cl.recv(1024)] returned
    ([None]: it raised [OSError]); text that does not decode raises into
    the handler of the serving loop, and nothing is sent. *)
Definition handle_client (polls : nat) (received : option string)
    : M (list reply) :=
  match received with
  | None => ret []
  | Some data =>
      match decode data with
      | None => ret []
      | Some request => handle_request polls request
      end
  end.

(** ** Observations on the port and its log

    Lists of operations are read oldest first; [rev (log u)] puts the log
    in that order. *)

(** All the chunks of a list, end to end. *)
Fixpoint join (chunks : list string) : string :=
  match chunks with
  | [] => ""
  | c :: rest => c ++ join rest
  end.

(** The bytes not yet consumed: unread ones, then those still to arrive. *)
Definition pending (u : uart) : string := rx u ++ join (wire u).

(** The bytes thrown away by [uart.read()]. *)
Fixpoint discarded (ops : list uart_op) : string :=
  match ops with
  | [] => ""
  | OpRead data :: rest => data ++ discarded rest
  | _ :: rest => discarded rest
  end.

(** The raw lines handed out by [uart.readline()]. *)
Fixpoint lines_read (ops : list uart_op) : list string :=
  match ops with
  | [] => []
  | OpReadline data :: rest => data :: lines_read rest
  | _ :: rest => lines_read rest
  end.

Definition is_write (op : uart_op) : bool :=
  match op with OpWrite _ _ => true | _ => false end.

Definition is_read (op : uart_op) : bool :=
  match op with OpRead _ => true | _ => false end.

Definition is_readline (op : uart_op) : bool :=
  match op with OpReadline _ => true | _ => false end.

(** Operations of the clearing loop, and of the read loop. *)
Definition flush_op (op : uart_op) : bool :=
  match op with OpAny _ | OpRead _ => true | _ => false end.

Definition poll_op (op : uart_op) : bool :=
  match op with OpAny _ | OpReadline _ => true | _ => false end.

(** Every operation of kind [p] comes before every operation of kind [q]. *)
Definition precedes (p q : uart_op -> bool) (ops : list uart_op) : Prop :=
  forall i j a b,
    nth_error ops i = Some a -> nth_error ops j = Some b ->
    p a = true -> q b = true -> (i < j)%nat.

(** The bytes a write of [buf] puts out on port [u]. *)
Definition accepted (u : uart) (buf : string) : nat :=
  match room u with
  | None => String.length buf
  | Some k => Nat.min k (String.length buf)
  end.

(** What the read loop, entered with [lines0] already accumulated, makes
    of the raw lines [raws] it is handed: they all decode and none but the
    last is a completion line. *)
Definition collects (lines0 raws : list string) (out : outcome) : Prop :=
  match out with
  | Collected response_lines found_completion =>
      response_lines = (lines0 ++ map strip raws)%list
      /\ Forall (fun raw => decode raw = Some raw) raws
      /\ (if found_completion
          then exists init final,
                 raws = (init ++ [final])%list
                 /\ Forall (fun raw => completion (strip raw) = false) init
                 /\ completion (strip final) = true
          else Forall (fun raw => completion (strip raw) = false) raws)
  | Failed error_text =>
      error_text = "Decode error: "
      /\ exists good bad,
           raws = (good ++ [bad])%list
           /\ decode bad = None
           /\ Forall (fun raw => decode raw = Some raw) good
           /\ Forall (fun raw => completion (strip raw) = false) good
  end.

(** ** Further functions of main.py *)

(** The loop of [parse_temp]: the first line starting with ['TEMP,']
    decides; a conversion error there ends the function with [None]. *)
Fixpoint first_temp (response_lines : list string) : option pyfloat :=
  match response_lines with
  | [] => None
  | line :: rest =>
      if startswith line "TEMP," then
        let parts := split "," line in
        if (2 <=? List.length parts)%nat then py_float (item parts 1)
        else first_temp rest
      else first_temp rest
  end.

(** [parse_temp(response_dict)] *)
Definition parse_temp (response_dict : result) : option pyfloat :=
  match response response_dict with
  | [] => None
  | response_lines => first_temp response_lines
  end.

(** [f"{n:02d}"]: decimal digits, zero-padded to two characters, the sign
    counting as one. *)
Definition fmt_02d (n : Z) : string :=
  let digits_of (m : Z) := NilZero.string_of_uint (N.to_uint (Z.to_N m)) in
  if (n <? 0)%Z then "-" ++ digits_of (- n)%Z
  else
    let s := digits_of n in
    if (String.length s <? 2)%nat then "0" ++ s else s.

(** [get_local_time_str()]; like [get_local_hour()] it reads the clock
    itself and again inside [get_timezone_offset()]. *)
Definition get_local_time_str (utc_time utc_time' : struct_time) : string :=
  let offset := get_timezone_offset utc_time' in
  let local_hour := ((tm_hour utc_time + offset) mod 24)%Z in
  let tz_name := if (offset =? -7)%Z then "PDT" else "PST" in
  fmt_02d local_hour ++ ":" ++ fmt_02d (tm_min utc_time) ++ ":"
  ++ fmt_02d (tm_sec utc_time) ++ " " ++ tz_name.

(** What [sync_time] does, in order. *)
Inductive sync_action : Type :=
| Settime (ok : bool)
| Sleep2.

(** The [for attempt in range(max_attempts)] loop of [sync_time], over the
    attempts still to make.  [settime_ok k] tells whether the call number
    [k] of [ntptime.settime()] returns ([true]) or raises. *)
Fixpoint sync_attempts (max_attempts : nat) (attempts : list nat)
    (settime_ok : nat -> bool) : bool * list sync_action :=
  match attempts with
  | [] => (false, [])
  | attempt :: rest =>
      if settime_ok attempt then (true, [Settime true])
      else
        let pause := if (attempt <? max_attempts - 1)%nat then [Sleep2] else [] in
        let (synced, actions) := sync_attempts max_attempts rest settime_ok in
        (synced, Settime false :: pause ++ actions)%list
  end.

(** [sync_time()] *)
Definition sync_time (settime_ok : nat -> bool) : bool * list sync_action :=
  let max_attempts := 3%nat in
  sync_attempts max_attempts (seq 0 max_attempts) settime_ok.

(** *** The serving loop of [web_server_scheduled] *)

(** What [s.accept()] brings in one turn of the loop: it times out
    ([OSError]), or a client connects and [cl.recv(1024)] gives
    [received] ([None]: it raised [OSError]). *)
Inductive arrival : Type :=
| AcceptTimeout
| Client (received : option string).

(** One turn of the [while True] loop: the arrival, and the two clock
    readings of each call of [is_wifi_hours()] the turn can make:
    [on_timeout] in the handler of the accept timeout, [at_end] in the
    [finally] block. *)
Record turn : Type := mk_turn {
  arrives : arrival;
  on_timeout : struct_time * struct_time;
  at_end : struct_time * struct_time
}.

Definition wifi_hours_at (clock : struct_time * struct_time) : bool :=
  is_wifi_hours (fst clock) (snd clock).

(** The loop over the turns the environment offers.  Each client is
    handled to the end and its socket closed in the [finally] block, which
    then checks the hours; the accept timeout checks them first in its own
    handler.  The result tells whether the loop has ended ([true]) or is
    still serving when the turns run out, and lists, per client, the
    replies it was sent. *)
Fixpoint serve (polls : nat) (turns : list turn)
    : M (bool * list (list reply)) :=
  match turns with
  | [] => ret (false, [])
  | t :: rest =>
      match arrives t with
      | AcceptTimeout =>
          if negb (wifi_hours_at (on_timeout t)) then ret (true, [])
          else if negb (wifi_hours_at (at_end t)) then ret (true, [])
          else serve polls rest
      | Client received =>
          replies <- handle_client polls received ;;
          if negb (wifi_hours_at (at_end t)) then ret (true, [replies])
          else
            later <- serve polls rest ;;
            ret (fst later, replies :: snd later)
      end
  end.

(** Does the loop go on after this turn? *)
Definition turn_continues (t : turn) : bool :=
  match arrives t with
  | AcceptTimeout => wifi_hours_at (on_timeout t) && wifi_hours_at (at_end t)
  | Client _ => wifi_hours_at (at_end t)
  end.

(** ** WiFi management *)

Definition WIFI_CONNECT_RETRIES : nat := 10.
Definition WIFI_CONNECT_TIMEOUT : nat := 10.

(** The status constants of the [network] module that the firmware looks
    up with [hasattr]; [None]: this port does not define the name. *)
Record network : Type := mk_network {
  STAT_IDLE : option Z;
  STAT_WRONG_PASSWORD : option Z;
  STAT_NO_AP_FOUND : option Z
}.

(** Calls made on the radio, as recorded in its log. *)
Inductive wlan_op : Type :=
| WActive (answer : bool)
| WActivate (on : bool)
| WStatus (answer : option Z)
| WIsConnected (answer : bool)
| WConnect (ok : bool)
| WDisconnect
| WIfconfig
| WRssi
| WRetryPause.

(** The radio and its environment: whether it is powered; what the next
    calls of [isconnected()], [status()] and [connect()] will answer, by
    call number ([status] answering [None] and [connect] answering [false]
    stand for a raised exception); how many of each were made; the log,
    newest first.  The other methods return normally. *)
Record wlan : Type := mk_wlan {
  powered : bool;
  connected_at : nat -> bool;
  status_at : nat -> option Z;
  connect_ok_at : nat -> bool;
  n_connected : nat;
  n_status : nat;
  n_connect : nat;
  calls : list wlan_op
}.

(** State passing over the radio. *)
Definition W (A : Type) : Type := wlan -> A * wlan.

Definition wret {A : Type} (a : A) : W A := fun w => (a, w).

Definition wbind {A B : Type} (m : W A) (f : A -> W B) : W B :=
  fun w => let (a, w') := m w in f a w'.

Notation "x <~ m ;; k" := (wbind m (fun x => k))
  (at level 61, m at next level, right associativity).
Notation "m ~> k" := (wbind m (fun _ => k))
  (at level 61, right associativity).

Definition wlog (op : wlan_op) (w : wlan) : wlan :=
  mk_wlan (powered w) (connected_at w) (status_at w) (connect_ok_at w)
    (n_connected w) (n_status w) (n_connect w) (op :: calls w).

(** [wlan.active()] *)
Definition wlan_active : W bool :=
  fun w => (powered w, wlog (WActive (powered w)) w).

(** [wlan.active(on)] *)
Definition wlan_activate (on : bool) : W unit :=
  fun w => (tt, wlog (WActivate on)
                  (mk_wlan on (connected_at w) (status_at w) (connect_ok_at w)
                     (n_connected w) (n_status w) (n_connect w) (calls w))).

(** [wlan.status()] *)
Definition wlan_status : W (option Z) :=
  fun w => let a := status_at w (n_status w) in
           (a, wlog (WStatus a)
                 (mk_wlan (powered w) (connected_at w) (status_at w)
                    (connect_ok_at w) (n_connected w) (S (n_status w))
                    (n_connect w) (calls w))).

(** [wlan.isconnected()] *)
Definition wlan_isconnected : W bool :=
  fun w => let a := connected_at w (n_connected w) in
           (a, wlog (WIsConnected a)
                 (mk_wlan (powered w) (connected_at w) (status_at w)
                    (connect_ok_at w) (S (n_connected w)) (n_status w)
                    (n_connect w) (calls w))).

(** [wlan.connect(WIFI_SSID, WIFI_PASSWORD)] *)
Definition wlan_connect : W bool :=
  fun w => let a := connect_ok_at w (n_connect w) in
           (a, wlog (WConnect a)
                 (mk_wlan (powered w) (connected_at w) (status_at w)
                    (connect_ok_at w) (n_connected w) (n_status w)
                    (S (n_connect w)) (calls w))).

Definition wlan_note (op : wlan_op) : W unit := fun w => (tt, wlog op w).

(** The polling loop of [wait_for_wifi_ready]; [ready_polls] is the number
    of turns it makes before [time.time() - start_time < max_wait] fails. *)
Fixpoint ready_loop (ready_polls : nat) : W bool :=
  match ready_polls with
  | O => wret false
  | S n =>
      status <~ wlan_status ;;
      match status with
      | Some s => if (s =? -1)%Z then ready_loop n else wret true
      | None => ready_loop n
      end
  end.

(** [wait_for_wifi_ready()] *)
Definition wait_for_wifi_ready (ready_polls : nat) : W bool :=
  active <~ wlan_active ;;
  (if active then wret tt else wlan_activate true) ~>
  ready_loop ready_polls.

Definition is_status (name : option Z) (status : Z) : bool :=
  match name with
  | Some v => (status =? v)%Z
  | None => false
  end.

(** How the wait for one connection attempt ends. *)
Inductive waited : Type :=
| WrongPassword
| WaitOver.

(** [while not wlan.isconnected() and timeout > 0] of one attempt. *)
Fixpoint wait_connected (net : network) (timeout : nat) : W waited :=
  connected <~ wlan_isconnected ;;
  if connected then wret WaitOver
  else
    match timeout with
    | O => wret WaitOver
    | S timeout' =>
        status <~ wlan_status ;;
        match status with
        | Some s =>
            if is_status (STAT_WRONG_PASSWORD net) s then wret WrongPassword
            else if is_status (STAT_NO_AP_FOUND net) s then wret WaitOver
            else wait_connected net timeout'
        | None => wait_connected net timeout'
        end
    end.

(** The [for attempt in range(WIFI_CONNECT_RETRIES)] loop of
    [connect_wifi_robust], over the attempts still to make. *)
Fixpoint connect_attempts (net : network) (attempts : list nat) : W bool :=
  match attempts with
  | [] => wret false
  | attempt :: rest =>
      let retry :=
        (if (attempt <? WIFI_CONNECT_RETRIES - 1)%nat
         then wlan_note WRetryPause else wret tt) ~>
        connect_attempts net rest in
      connected <~ wlan_isconnected ;;
      if connected then wlan_note WIfconfig ~> wret true
      else
        current_status <~ wlan_status ;;
        match current_status with
        | Some s =>
            match STAT_IDLE net with
            | Some idle =>
                if (s =? idle)%Z then wret tt else wlan_note WDisconnect
            | None => wlan_note WDisconnect
            end
        | None => wret tt
        end ~>
        ok <~ wlan_connect ;;
        if negb ok then retry
        else
          w <~ wait_connected net WIFI_CONNECT_TIMEOUT ;;
          match w with
          | WrongPassword => wret false
          | WaitOver =>
              connected' <~ wlan_isconnected ;;
              if connected'
              then wlan_note WIfconfig ~> wlan_note WRssi ~> wret true
              else wlan_status ~> retry
          end
  end.

(** [connect_wifi_robust()] *)
Definition connect_wifi_robust (net : network) (ready_polls : nat) : W bool :=
  ready <~ wait_for_wifi_ready ready_polls ;;
  if negb ready then wret false
  else connect_attempts net (seq 0 WIFI_CONNECT_RETRIES).

(** [disconnect_wifi()] *)
Definition disconnect_wifi : W unit :=
  connected <~ wlan_isconnected ;;
  (if connected then wlan_note WDisconnect else wret tt) ~>
  wlan_activate false.

(** Observations on the radio log. *)
Definition is_wconnect (op : wlan_op) : bool :=
  match op with WConnect _ => true | _ => false end.

Definition connects (ops : list wlan_op) : nat :=
  List.length (filter is_wconnect ops).

Definition is_wstatus (op : wlan_op) : bool :=
  match op with WStatus _ => true | _ => false end.

(** The newest calls of a log (newest first) are the ones made when the
    radio has just answered that it is connected. *)
Definition ends_connected (new : list wlan_op) : Prop :=
  exists earlier,
    new = WIfconfig :: WIsConnected true :: earlier
    \/ new = WRssi :: WIfconfig :: WIsConnected true :: earlier.

(** * Properties *)

Local Open Scope Z_scope.

(** ** Schedule engine *)

Section Calendar.

(** Sanity checks against the civil calendar. *)
Example weekday_2000_01_01 : Time.weekday 2000 1 1 = 5.
Proof. reflexivity. Qed.

Example weekday_2024_03_01 : Time.weekday 2024 3 1 = 4.
Proof. reflexivity. Qed.

Example dst_days_2024 :
  (get_nth_weekday_of_month 2024 3 6 2, get_nth_weekday_of_month 2024 11 6 1)
  = (10, 3).
Proof. reflexivity. Qed.

Example dst_2025 :
  (is_dst 2025 3 8, is_dst 2025 3 9, is_dst 2025 11 1, is_dst 2025 11 2)
  = (false, true, true, false).
Proof. reflexivity. Qed.

Lemma localtime_wday_range secs : 0 <= Time.localtime_wday secs < 7.
Proof. unfold Time.localtime_wday. apply Z.mod_pos_bound. lia. Qed.

(** Days are counted linearly within a month. *)
Lemma days_from_civil_day y m d :
  Time.days_from_civil y m d = Time.days_from_civil y m 1 + (d - 1).
Proof. unfold Time.days_from_civil. cbv zeta. lia. Qed.

Lemma weekday_of_days y m d :
  Time.weekday y m d = (Time.days_from_civil y m d - Time.EPOCH_DAYS + 5) mod 7.
Proof.
  unfold Time.weekday, Time.localtime_wday, Time.mktime.
  replace ((Time.days_from_civil y m d - Time.EPOCH_DAYS) * 86400
           + 0 * 3600 + 0 * 60 + 0)
    with ((Time.days_from_civil y m d - Time.EPOCH_DAYS) * 86400) by lia.
  rewrite Z.div_mul by lia. reflexivity.
Qed.

(** The weekday advances by one per day, modulo 7. *)
Lemma weekday_shift y m d :
  Time.weekday y m d = (Time.weekday y m 1 + (d - 1)) mod 7.
Proof.
  rewrite !weekday_of_days, (days_from_civil_day y m d).
  rewrite Zplus_mod_idemp_l. f_equal. lia.
Qed.

Lemma first_weekday_is_weekday y m :
  Time.localtime_wday (Time.mktime y m 1 0 0 0) = Time.weekday y m 1.
Proof. reflexivity. Qed.

(** The day the rule computes falls on the requested weekday, in the
    [n]-th week of the month. *)
Lemma nth_weekday_correct y m wd n :
  0 <= wd < 7 ->
  let target := get_nth_weekday_of_month y m wd n in
  Time.weekday y m target = wd
  /\ 7 * (n - 1) + 1 <= target <= 7 * n.
Proof.
  intros Hwd target. subst target. unfold get_nth_weekday_of_month. cbv zeta.
  rewrite first_weekday_is_weekday.
  pose proof (localtime_wday_range (Time.mktime y m 1 0 0 0)) as Hfw.
  rewrite first_weekday_is_weekday in Hfw.
  set (fw := Time.weekday y m 1) in *.
  pose proof (Z.mod_pos_bound (wd - fw) 7 ltac:(lia)) as Hk.
  split; [| lia].
  rewrite weekday_shift. fold fw.
  replace (fw + (1 + (wd - fw) mod 7 + (n - 1) * 7 - 1))
    with (fw + (wd - fw) mod 7 + (n - 1) * 7) by lia.
  rewrite Z.mod_add by lia.
  rewrite Zplus_mod_idemp_r.
  replace (fw + (wd - fw)) with wd by lia.
  apply Z.mod_small; lia.
Qed.

End Calendar.

(** C6: the DST predicate is false before March and after November, true
    from April to October, true in March exactly from the day the
    nth-weekday rule gives for the second Sunday, and true in November
    exactly before the day it gives for the first Sunday; the rule is
    1 + ((weekday - first_weekday) mod 7) + (n - 1) * 7, and the two days
    it yields are Sundays of the second and of the first week. *)
Theorem is_dst_rule (year month day : Z) :
  let dst_start_day := get_nth_weekday_of_month year 3 6 2 in
  let dst_end_day := get_nth_weekday_of_month year 11 6 1 in
  (month < 3 \/ 11 < month -> is_dst year month day = false)
  /\ (3 < month < 11 -> is_dst year month day = true)
  /\ (month = 3 -> (is_dst year month day = true <-> dst_start_day <= day))
  /\ (month = 11 -> (is_dst year month day = true <-> day < dst_end_day))
  /\ (forall m wd n,
        get_nth_weekday_of_month year m wd n
        = 1 + (wd - Time.weekday year m 1) mod 7 + (n - 1) * 7)
  /\ (Time.weekday year 3 dst_start_day = 6 /\ 8 <= dst_start_day <= 14)
  /\ (Time.weekday year 11 dst_end_day = 6 /\ 1 <= dst_end_day <= 7).
Proof.
  intros dst_start_day dst_end_day.
  repeat split.
  - intros H. unfold is_dst.
    destruct (month <? 3) eqn:E1; [reflexivity |].
    destruct (11 <? month) eqn:E2; [reflexivity |]. lia.
  - intros H. unfold is_dst.
    destruct (month <? 3) eqn:E1; [lia |].
    destruct (11 <? month) eqn:E2; [lia |]. cbn [orb].
    destruct (3 <? month) eqn:E3; [| lia].
    destruct (month <? 11) eqn:E4; [reflexivity | lia].
  - subst month. unfold is_dst. cbn. fold dst_start_day. lia.
  - subst month. unfold is_dst. cbn. fold dst_start_day. lia.
  - subst month. unfold is_dst. cbn. fold dst_end_day. lia.
  - subst month. unfold is_dst. cbn. fold dst_end_day. lia.
  - apply (nth_weekday_correct year 3 6 2). lia.
  - pose proof (nth_weekday_correct year 3 6 2 ltac:(lia)) as [_ H].
    fold dst_start_day in H. lia.
  - pose proof (nth_weekday_correct year 3 6 2 ltac:(lia)) as [_ H].
    fold dst_start_day in H. lia.
  - apply (nth_weekday_correct year 11 6 1). lia.
  - pose proof (nth_weekday_correct year 11 6 1 ltac:(lia)) as [_ H].
    fold dst_end_day in H. lia.
  - pose proof (nth_weekday_correct year 11 6 1 ltac:(lia)) as [_ H].
    fold dst_end_day in H. lia.
Qed.

(** C9: the effective offset is the base offset or the base offset plus
    one, chosen by the DST predicate alone, and the local hour
    (utc_hour + offset) mod 24 lies in 0..23 for every UTC hour in 0..23
    and every negative base offset. *)
Theorem local_hour_in_range (base : Z) (utc_time utc_time' : struct_time)
    (Hhour : 0 <= tm_hour utc_time <= 23) (Hbase : base < 0) :
  let offset := timezone_offset_from base utc_time' in
  (offset = base \/ offset = base + 1)
  /\ offset = (if is_dst (tm_year utc_time') (tm_mon utc_time') (tm_mday utc_time')
               then base + 1 else base)
  /\ local_hour_from base utc_time utc_time' = (tm_hour utc_time + offset) mod 24
  /\ 0 <= local_hour_from base utc_time utc_time' <= 23
  /\ (get_timezone_offset utc_time' = -8 \/ get_timezone_offset utc_time' = -7)
  /\ 0 <= get_local_hour utc_time utc_time' <= 23.
Proof.
  intros offset. subst offset.
  unfold get_local_hour, get_timezone_offset, BASE_TIMEZONE_OFFSET.
  unfold local_hour_from, timezone_offset_from. cbv zeta.
  destruct (is_dst _ _ _).
  - repeat split; try (right; reflexivity);
      pose proof (Z.mod_pos_bound (tm_hour utc_time + (base + 1)) 24 ltac:(lia));
      pose proof (Z.mod_pos_bound (tm_hour utc_time + (-8 + 1)) 24 ltac:(lia)); lia.
  - repeat split; try (left; reflexivity);
      pose proof (Z.mod_pos_bound (tm_hour utc_time + base) 24 ltac:(lia));
      pose proof (Z.mod_pos_bound (tm_hour utc_time + -8) 24 ltac:(lia)); lia.
Qed.

(** At 03:00 UTC on 2025-07-04 the firmware's own base offset gives local
    hour 20. *)
Lemma local_hour_in_range_witness :
  let t := mk_time 2025 7 4 3 0 0 4 185 in
  timezone_offset_from BASE_TIMEZONE_OFFSET t = -7
  /\ get_local_hour t t = 20
  /\ 0 <= local_hour_from BASE_TIMEZONE_OFFSET t t <= 23.
Proof.
  intros t.
  split; [reflexivity |]. split; [reflexivity |].
  apply (local_hour_in_range BASE_TIMEZONE_OFFSET t t); [cbn; lia | reflexivity].
Defined.

(** C5: for hours and window bounds in 0..23, a window with start < end
    is active exactly when start <= hour < end (active at hour = start,
    inactive at hour = end); a window with end <= start is active exactly
    when hour >= start or hour < end, so a window with start = end is
    always active. *)
Theorem in_hours_window (start_hour end_hour hour : Z)
    (Hhour : 0 <= hour <= 23)
    (Hstart : 0 <= start_hour <= 23) (Hend : 0 <= end_hour <= 23) :
  (start_hour < end_hour ->
     (in_hours start_hour end_hour hour = true <-> start_hour <= hour < end_hour)
     /\ in_hours start_hour end_hour start_hour = true
     /\ in_hours start_hour end_hour end_hour = false)
  /\ (end_hour <= start_hour ->
        (in_hours start_hour end_hour hour = true
         <-> start_hour <= hour \/ hour < end_hour))
  /\ (start_hour = end_hour -> in_hours start_hour end_hour hour = true)
  /\ (forall utc_time utc_time',
        is_wifi_hours utc_time utc_time'
        = in_hours WIFI_START_HOUR WIFI_END_HOUR (get_local_hour utc_time utc_time')).
Proof.
  unfold in_hours. repeat split.
  - destruct (end_hour <=? start_hour) eqn:E; lia.
  - destruct (end_hour <=? start_hour) eqn:E; lia.
  - destruct (end_hour <=? start_hour) eqn:E; lia.
  - destruct (end_hour <=? start_hour) eqn:E; lia.
  - destruct (end_hour <=? start_hour) eqn:E; lia.
  - destruct (end_hour <=? start_hour) eqn:E; lia.
  - destruct (end_hour <=? start_hour) eqn:E; lia.
  - destruct (end_hour <=? start_hour) eqn:E; lia.
Qed.

(** The firmware's own window, 5 to 8, at local hour 5. *)
Lemma in_hours_window_witness :
  in_hours WIFI_START_HOUR WIFI_END_HOUR 5 = true
  /\ (in_hours WIFI_START_HOUR WIFI_END_HOUR 5 = true <-> 5 <= 5 < 8).
Proof.
  split; [reflexivity |].
  apply (in_hours_window WIFI_START_HOUR WIFI_END_HOUR 5);
    unfold WIFI_START_HOUR, WIFI_END_HOUR; lia.
Defined.

(** ** Status parsing *)

Section StatusParsing.

Lemma parse_status_nonempty (ok : bool) (lines : list string) (err : option string) :
  lines <> [] ->
  parse_status (mk_result ok lines err)
  = match first_old_format lines with
    | Some st => Some st
    | None => new_format (last lines "")
    end.
Proof.
  intros Hne. unfold parse_status. cbn [response].
  destruct lines as [| l ls]; [contradiction | reflexivity].
Qed.

Lemma first_old_format_skip (pre : list string) (line : string)
    (post : list string) :
  Forall (fun x => old_format x = None) pre ->
  first_old_format (pre ++ line :: post)%list
  = match old_format line with
    | Some st => Some st
    | None => first_old_format post
    end.
Proof.
  induction 1 as [| x pre Hx _ IH]; cbn [app first_old_format].
  - reflexivity.
  - rewrite Hx. exact IH.
Qed.

Lemma first_old_format_none (lines : list string) :
  Forall (fun x => old_format x = None) lines ->
  first_old_format lines = None.
Proof.
  induction 1 as [| x ls Hx _ IH]; cbn [first_old_format].
  - reflexivity.
  - rewrite Hx. exact IH.
Qed.

(** When a line yields no status in the first loop. *)
Lemma old_format_none (line : string) :
  old_format line = None <->
  (startswith line ">>STATUS" || startswith line "STATUS") = false
  \/ (List.length (split "," (replace ">>" "" line)) < 5)%nat
  \/ py_float (item (split "," (replace ">>" "" line)) 1) = None
  \/ py_float (item (split "," (replace ">>" "" line)) 2) = None
  \/ py_int (item (split "," (replace ">>" "" line)) 3) = None.
Proof.
  unfold old_format, status_fields. cbv zeta.
  set (parts := split "," (replace ">>" "" line)).
  destruct (startswith line ">>STATUS" || startswith line "STATUS").
  2: { split; auto. }
  destruct (5 <=? List.length parts)%nat eqn:E.
  - apply Nat.leb_le in E.
    destruct (py_float (item parts 1)) as [t |];
      destruct (py_float (item parts 2)) as [sp |];
      destruct (py_int (item parts 3)) as [d |];
      split; intros H; auto 6; try discriminate;
      destruct H as [H | [H | [H | [H | H]]]]; try discriminate; lia.
  - apply Nat.leb_gt in E. split; auto.
Qed.

End StatusParsing.

(** C1 (as the code has it): the first line that starts with 'STATUS' or
    '>>STATUS', has at least 5 comma-separated fields once every '>>' is
    removed, and whose fields convert, gives the status; the four fields
    right after the STATUS tag (indices 1 to 4, no identifier slot) are
    temperature (float), setpoint (float), duty_cycle (integer) and state
    (text).  So ">>STATUS,93.4,108.0,42,heating" parses to
    {temperature: 93.4, setpoint: 108.0, duty_cycle: 42, state: "heating"}.
    If no line yields a status that way, the last line is tried as a CSV of
    at least 3 fields in the order temperature, duty_cycle, setpoint with
    state "unknown" ("93.4,42,108.0" parses to {temperature: 93.4,
    duty_cycle: 42, setpoint: 108.0, state: "unknown"}), and when that
    fails too, or the response is empty, the result is no status. *)
Theorem parse_status_formats :
  (forall ok err pre line post t sp d,
     let parts := split "," (replace ">>" "" line) in
     Forall (fun x => old_format x = None) pre ->
     (startswith line ">>STATUS" || startswith line "STATUS") = true ->
     (5 <= List.length parts)%nat ->
     py_float (item parts 1) = Some t ->
     py_float (item parts 2) = Some sp ->
     py_int (item parts 3) = Some d ->
     parse_status (mk_result ok (pre ++ line :: post)%list err)
     = Some (mk_status t sp d (item parts 4) line))
  /\ (forall ok err lines t d sp,
        let line := last lines "" in
        let parts := split "," line in
        lines <> [] ->
        Forall (fun x => old_format x = None) lines ->
        (3 <= List.length parts)%nat ->
        py_float (item parts 0) = Some t ->
        py_int (item parts 1) = Some d ->
        py_float (item parts 2) = Some sp ->
        parse_status (mk_result ok lines err)
        = Some (mk_status t sp d "unknown" line))
  /\ (forall ok err lines,
        let parts := split "," (last lines "") in
        Forall (fun x => old_format x = None) lines ->
        (List.length parts < 3)%nat
        \/ py_float (item parts 0) = None
        \/ py_int (item parts 1) = None
        \/ py_float (item parts 2) = None ->
        parse_status (mk_result ok lines err) = None)
  /\ (forall ok err, parse_status (mk_result ok [] err) = None)
  /\ (forall line,
        let parts := split "," (replace ">>" "" line) in
        old_format line = None <->
        (startswith line ">>STATUS" || startswith line "STATUS") = false
        \/ (List.length parts < 5)%nat
        \/ py_float (item parts 1) = None
        \/ py_float (item parts 2) = None
        \/ py_int (item parts 3) = None)
  /\ parse_status (mk_result true [">>STATUS,93.4,108.0,42,heating"] None)
     = Some (mk_status (decimal 934 (-1)) (decimal 1080 (-1)) 42 "heating"
               ">>STATUS,93.4,108.0,42,heating")
  /\ parse_status (mk_result true ["93.4,42,108.0"] None)
     = Some (mk_status (decimal 934 (-1)) (decimal 1080 (-1)) 42 "unknown"
               "93.4,42,108.0").
Proof.
  split; [| split; [| split; [| split; [| split; [| split]]]]].
  - intros ok err pre line post t sp d parts Hpre Hstart Hlen Ht Hsp Hd.
    rewrite parse_status_nonempty by (destruct pre; discriminate).
    rewrite first_old_format_skip by exact Hpre.
    unfold old_format. rewrite Hstart. unfold status_fields. cbv zeta.
    fold parts. apply Nat.leb_le in Hlen. rewrite Hlen, Ht, Hsp, Hd.
    reflexivity.
  - intros ok err lines t d sp line parts Hne Hnone Hlen Ht Hd Hsp.
    rewrite parse_status_nonempty by exact Hne.
    rewrite first_old_format_none by exact Hnone.
    unfold new_format. cbv zeta. fold line. fold parts.
    apply Nat.leb_le in Hlen. rewrite Hlen, Ht, Hd, Hsp. reflexivity.
  - intros ok err lines parts Hnone Hbad.
    destruct lines as [| l ls]; [reflexivity |].
    rewrite parse_status_nonempty by discriminate.
    rewrite first_old_format_none by exact Hnone.
    unfold new_format. cbv zeta. fold parts.
    destruct (3 <=? List.length parts)%nat eqn:E; [| reflexivity].
    apply Nat.leb_le in E.
    destruct Hbad as [H | [H | [H | H]]].
    + lia.
    + rewrite H. reflexivity.
    + rewrite H. destruct (py_float (item parts 0)); reflexivity.
    + rewrite H. destruct (py_float (item parts 0));
        [destruct (py_int (item parts 1)) |]; reflexivity.
  - reflexivity.
  - intros line parts. apply old_format_none.
  - vm_compute. reflexivity.
  - vm_compute. reflexivity.
Qed.

(** A telemetry line followed by a status line: the status line is used. *)
Lemma parse_status_formats_witness :
  parse_status (mk_result true ["T,91.2,0"; "STATUS,93.4,108.0,42,idle"; "<<OK"] None)
  = Some (mk_status (decimal 934 (-1)) (decimal 1080 (-1)) 42 "idle"
            "STATUS,93.4,108.0,42,idle").
Proof.
  pose proof parse_status_formats as [H _].
  apply (H true None ["T,91.2,0"] "STATUS,93.4,108.0,42,idle" ["<<OK"]).
  - repeat constructor.
  - reflexivity.
  - vm_compute. lia.
  - vm_compute. reflexivity.
  - vm_compute. reflexivity.
  - vm_compute. reflexivity.
Defined.

(** C1 as stated fails: with an identifier field after the tag, the line
    ">>STATUS,1,93.4,108.0,42,heating" gives no status at all, because
    field 3 ("108.0") is not an integer and the line is no CSV either. *)
Lemma parse_status_id_slot_counterexample :
  let r := mk_result true [">>STATUS,1,93.4,108.0,42,heating"] None in
  parse_status r = None
  /\ ~ (exists st, parse_status r = Some st
                   /\ temperature st = decimal 934 (-1)
                   /\ setpoint st = decimal 1080 (-1)
                   /\ duty_cycle st = 42
                   /\ state st = "heating").
Proof.
  assert (H : parse_status
                (mk_result true [">>STATUS,1,93.4,108.0,42,heating"] None) = None)
    by (vm_compute; reflexivity).
  cbv zeta. split; [exact H |].
  intros [st [Hst _]]. rewrite H in Hst. discriminate.
Qed.

(** ** Serial protocol client *)

Section Text.

Lemma append_nil_r (s : string) : s ++ "" = s.
Proof. induction s as [| c s IH]; cbn; [reflexivity | now rewrite IH]. Qed.

Lemma append_assoc (a b c : string) : (a ++ b) ++ c = a ++ (b ++ c).
Proof. induction a as [| x a IH]; cbn; [reflexivity | now rewrite IH]. Qed.

Lemma length_zero (s : string) : String.length s = 0%nat -> s = "".
Proof. destruct s; [reflexivity | discriminate]. Qed.

Lemma join_app (a b : list string) : join (a ++ b)%list = join a ++ join b.
Proof.
  induction a as [| x a IH]; cbn; [reflexivity |].
  now rewrite IH, append_assoc.
Qed.

Lemma join_firstn_skipn (k : nat) (l : list string) :
  join l = join (firstn k l) ++ join (skipn k l).
Proof. now rewrite <- join_app, firstn_skipn. Qed.

(** [prefix] in terms of concatenation. *)
Lemma prefix_append (p s : string) :
  prefix p s = true <-> exists t, s = p ++ t.
Proof.
  revert s. induction p as [| c p IH]; intros s.
  - destruct s; cbn; split; eauto.
  - destruct s as [| d s]; cbn.
    + split; [discriminate | intros [t H]; discriminate].
    + destruct (ascii_dec c d) as [-> | Hne].
      * rewrite IH. split; intros [t H]; exists t; congruence.
      * split; [discriminate | intros [t H]; congruence].
Qed.

Lemma prefix_weaken (a b s : string) :
  prefix (a ++ b) s = true -> prefix a s = true.
Proof.
  rewrite !prefix_append. intros [t ->]. exists (b ++ t). apply append_assoc.
Qed.

(** A non-empty buffer yields a non-empty line, and nothing is lost. *)
Lemma cut_line_spec (s : string) :
  s <> "" ->
  exists c l r, cut_line s = (String c l, r) /\ s = String c l ++ r.
Proof.
  induction s as [| c s IH]; [contradiction |]. intros _.
  cbn [cut_line]. destruct (c =? LF)%char.
  - exists c, "", s. split; reflexivity.
  - destruct s as [| d s'].
    + exists c, "", "". split; reflexivity.
    + destruct IH as (c' & l & r & Hcut & Hs); [discriminate |].
      rewrite Hcut. exists c, (String c' l), r. split; [reflexivity |].
      cbn [append]. now rewrite Hs.
Qed.

End Text.

Section Trace.

Lemma discarded_app (a b : list uart_op) :
  discarded (a ++ b)%list = discarded a ++ discarded b.
Proof.
  induction a as [| op a IH]; cbn [app discarded]; [reflexivity |].
  destruct op; rewrite IH; [reflexivity | | reflexivity | reflexivity].
  now rewrite append_assoc.
Qed.

Lemma lines_read_app (a b : list uart_op) :
  lines_read (a ++ b)%list = (lines_read a ++ lines_read b)%list.
Proof.
  induction a as [| op a IH]; cbn [app lines_read]; [reflexivity |].
  destruct op; rewrite IH; reflexivity.
Qed.

Lemma pending_arrive (u : uart) : pending (arrive u) = pending u.
Proof.
  destruct u as [r [| c w] rm lg]; unfold pending, arrive; cbn;
    [reflexivity | apply append_assoc].
Qed.

Lemma arrive_room (u : uart) : room (arrive u) = room u.
Proof. unfold arrive. destruct (wire u); reflexivity. Qed.

Lemma arrive_log (u : uart) : log (arrive u) = log u.
Proof. unfold arrive. destruct (wire u); reflexivity. Qed.

(** The clearing loop ends with an empty buffer; what it read and dropped
    is the buffer it found plus the chunks that arrived meanwhile. *)
Lemma clear_loop_spec (fuel : nat) : forall u,
  (List.length (wire u) + match rx u with "" => 0 | _ => 1 end < fuel)%nat ->
  exists u' k ops,
    clear_loop fuel u = Some (tt, u')
    /\ rx u' = "" /\ wire u' = skipn k (wire u)
    /\ (k <= List.length (wire u))%nat
    /\ room u' = room u
    /\ log u' = (rev (ops ++ [OpAny 0]) ++ log u)%list
    /\ Forall (fun op => flush_op op = true) ops
    /\ discarded ops = rx u ++ join (firstn k (wire u)).
Proof.
  induction fuel as [| fuel IH]; intros u Hfuel; [lia |].
  cbn [clear_loop]. unfold bind, uart_any.
  destruct (String.length (rx (arrive u)) =? 0)%nat eqn:En.
  - apply Nat.eqb_eq in En. rewrite En.
    apply length_zero in En.
    unfold ret.
    destruct u as [r w rm lg]. unfold arrive, record in *. cbn in *.
    destruct w as [| c w]; cbn in *.
    + exists (mk_uart r [] rm (OpAny 0 :: lg)), 0%nat, [].
      cbn. subst r. repeat split; auto.
    + exists (mk_uart (r ++ c) w rm (OpAny 0 :: lg)), 1%nat, [].
      cbn. rewrite append_nil_r. repeat split; auto. lia.
  - apply Nat.eqb_neq in En. unfold uart_read.
    destruct u as [r w rm lg]. unfold arrive, record in *.
    destruct w as [| c w]; cbn -[clear_loop] in *.
    + destruct (IH (mk_uart "" [] rm (OpRead r :: OpAny (String.length r) :: lg)))
        as (u' & k & ops & Hrun & Hrx & Hwire & Hk & Hroom & Hlog & Hops & Hdisc).
      { cbn. destruct r; cbn in *; [contradiction | lia]. }
      cbn [rx wire room log] in *.
      exists u', 0%nat, (OpAny (String.length r) :: OpRead r :: ops).
      rewrite Hrun. repeat split; auto.
      * rewrite Hwire. destruct k; reflexivity.
      * rewrite Hlog. cbn [rev app]. rewrite <- !app_assoc. reflexivity.
      * cbn [discarded]. rewrite Hdisc. destruct k; cbn; now rewrite append_nil_r.
    + destruct (IH (mk_uart "" w rm
                      (OpRead (r ++ c) :: OpAny (String.length (r ++ c)) :: lg)))
        as (u' & k & ops & Hrun & Hrx & Hwire & Hk & Hroom & Hlog & Hops & Hdisc).
      { cbn. lia. }
      cbn [rx wire room log] in *.
      exists u', (S k), (OpAny (String.length (r ++ c)) :: OpRead (r ++ c) :: ops).
      rewrite Hrun. repeat split; auto.
      * lia.
      * rewrite Hlog. cbn [rev app]. rewrite <- !app_assoc. reflexivity.
      * cbn [discarded firstn join]. rewrite Hdisc. cbn [append].
        now rewrite append_assoc.
Qed.

End Trace.

Section ReadLoop.

Lemma decode_some (line text : string) : decode line = Some text -> text = line.
Proof. unfold decode. destruct (utf8_check 0 line); congruence. Qed.

(** The read loop only polls and reads lines; the raw lines it is handed
    are, end to end, the head of the pending bytes. *)
Lemma read_loop_spec (polls : nat) : forall lines0 u,
  exists out u' ops,
    read_loop polls lines0 u = Some (out, u')
    /\ log u' = (rev ops ++ log u)%list
    /\ room u' = room u
    /\ Forall (fun op => poll_op op = true) ops
    /\ pending u = join (lines_read ops) ++ pending u'
    /\ collects lines0 (lines_read ops) out.
Proof.
  induction polls as [| polls IH]; intros lines0 u.
  - exists (Collected lines0 false), u, []. cbn.
    repeat split; auto. now rewrite app_nil_r.
  - cbn [read_loop]. unfold bind, uart_any.
    set (a := arrive u). set (n := String.length (rx a)).
    destruct (n =? 0)%nat eqn:En.
    + destruct (IH lines0 (record (OpAny n) a))
        as (out & u' & ops & Hrun & Hlog & Hroom & Hops & Hpend & Hcol).
      exists out, u', (OpAny n :: ops). rewrite Hrun.
      split; [reflexivity |]. split; [| split; [| split; [| split]]].
      * rewrite Hlog. unfold record. cbn [log rev]. subst a.
        rewrite arrive_log, <- app_assoc. reflexivity.
      * rewrite Hroom. unfold record. cbn [room]. apply arrive_room.
      * constructor; [reflexivity | exact Hops].
      * cbn [lines_read]. rewrite <- Hpend. unfold record, pending. cbn [rx wire].
        symmetry. apply pending_arrive.
      * exact Hcol.
    + apply Nat.eqb_neq in En.
      unfold uart_readline, record. cbn [rx wire room log].
      destruct (rx a) as [| c0 s0] eqn:Erx;
        [exfalso; apply En; subst n; try rewrite Erx; reflexivity |].
      destruct (cut_line_spec (String c0 s0)) as (c & l & r & Hcut & Hs);
        [discriminate |].
      rewrite Hcut.
      set (u2 := mk_uart r (wire a) (room a) (OpReadline (String c l) :: OpAny n :: log a)).
      assert (Hp2 : pending u = String c l ++ pending u2).
      { rewrite <- (pending_arrive u). fold a. unfold pending. rewrite Erx, Hs.
        subst u2. cbn [rx wire]. apply append_assoc. }
      assert (Hl2 : forall ops,
                 (rev ops ++ log u2
                  = rev (OpAny n :: OpReadline (String c l) :: ops) ++ log u)%list).
      { intros ops. subst u2 a. cbn [log rev]. rewrite arrive_log, <- !app_assoc.
        reflexivity. }
      assert (Hr2 : room u2 = room u) by (subst u2 a; apply arrive_room).
      assert (Hj : String c l = join [String c l])
        by (cbn [join]; now rewrite append_nil_r).
      destruct (decode (String c l)) as [text |] eqn:Edec.
      * apply decode_some in Edec as Etext. subst text.
        destruct (completion (strip (String c l))) eqn:Ecomp.
        -- exists (Collected (lines0 ++ [strip (String c l)]) true), u2,
             [OpAny n; OpReadline (String c l)].
           split; [reflexivity |]. split; [| split; [| split; [| split]]].
           ++ apply (Hl2 []).
           ++ exact Hr2.
           ++ repeat constructor.
           ++ cbn [lines_read]. rewrite <- Hj. exact Hp2.
           ++ cbn [lines_read collects]. split; [reflexivity |].
              split; [repeat constructor; exact Edec |].
              exists [], (String c l). repeat split; auto.
        -- destruct (IH (lines0 ++ [strip (String c l)])%list u2)
             as (out & u' & ops & Hrun & Hlog & Hroom & Hops & Hpend & Hcol).
           exists out, u', (OpAny n :: OpReadline (String c l) :: ops).
           rewrite Hrun.
           split; [reflexivity |]. split; [| split; [| split; [| split]]].
           ++ rewrite Hlog. apply Hl2.
           ++ congruence.
           ++ repeat (constructor; [reflexivity |]). exact Hops.
           ++ cbn [lines_read join]. rewrite append_assoc, <- Hpend. exact Hp2.
           ++ cbn [lines_read]. destruct out as [e | lines found]; cbn [collects] in *.
              ** destruct Hcol as (He & good & bad & Hraws & Hbad & Hgood & Hnc).
                 split; [exact He |].
                 exists (String c l :: good), bad. rewrite Hraws.
                 repeat split; auto.
              ** destruct Hcol as (Hlines & Hdec & Hshape).
                 split; [| split].
                 --- rewrite Hlines, <- app_assoc. reflexivity.
                 --- constructor; assumption.
                 --- destruct found.
                     +++ destruct Hshape as (init & final & Hraws & Hinit & Hfinal).
                         exists (String c l :: init), final. rewrite Hraws.
                         repeat split; auto.
                     +++ constructor; assumption.
      * exists (Failed "Decode error: "), u2, [OpAny n; OpReadline (String c l)].
        split; [reflexivity |]. split; [| split; [| split; [| split]]].
        -- apply (Hl2 []).
        -- exact Hr2.
        -- repeat constructor.
        -- cbn [lines_read]. rewrite <- Hj. exact Hp2.
        -- cbn [lines_read collects]. split; [reflexivity |].
           exists [], (String c l). repeat split; auto.
Qed.

End ReadLoop.

Section Exchange.

(** The whole [try] block: the clearing loop, one write, the read loop. *)
Lemma transfer_trace (c : string) (polls : nat) (u : uart) :
  let buf := c ++ String LF "" in
  let n := accepted u buf in
  exists out u' k flush_ops read_ops,
    transfer c polls u = Some (out, u')
    /\ log u' = (rev (flush_ops ++ OpAny 0 :: OpWrite buf n :: read_ops) ++ log u)%list
    /\ room u' = room u
    /\ Forall (fun op => flush_op op = true) flush_ops
    /\ Forall (fun op => poll_op op = true) read_ops
    /\ (k <= List.length (wire u))%nat
    /\ discarded flush_ops = rx u ++ join (firstn k (wire u))
    /\ join (skipn k (wire u)) = join (lines_read read_ops) ++ pending u'
    /\ (if (n =? String.length buf)%nat
        then collects [] (lines_read read_ops) out
        else out = Failed ("Write incomplete: " ++ show_nat n ++ "/"
                           ++ show_nat (String.length buf) ++ " bytes")
             /\ read_ops = []).
Proof.
  intros buf n.
  destruct (clear_loop_spec (2 + List.length (wire u)) u)
    as (u1 & k & fops & Hclear & Hrx1 & Hwire1 & Hk & Hroom1 & Hlog1 & Hfops & Hdisc).
  { destruct (rx u); lia. }
  unfold transfer, bind, clear_buffer. rewrite Hclear.
  unfold uart_write. fold buf.
  assert (Hn : match room u1 with
               | None => String.length buf
               | Some k0 => Nat.min k0 (String.length buf)
               end = n) by (subst n; unfold accepted; now rewrite Hroom1).
  rewrite Hn.
  set (u2 := record (OpWrite buf n) u1).
  assert (Hlog2 : forall ops,
             (rev ops ++ log u2
              = rev (fops ++ OpAny 0 :: OpWrite buf n :: ops) ++ log u)%list).
  { intros ops. subst u2. unfold record. cbn [log]. rewrite Hlog1.
    rewrite !rev_app_distr. cbn [rev app]. rewrite <- !app_assoc. reflexivity. }
  assert (Hpend2 : pending u2 = join (skipn k (wire u))).
  { subst u2. unfold record, pending. cbn [rx wire]. now rewrite Hrx1, Hwire1. }
  destruct (n =? String.length buf)%nat eqn:En; cbn [negb].
  - destruct (read_loop_spec polls [] u2)
      as (out & u' & rops & Hrun & Hlog & Hroom & Hrops & Hpend & Hcol).
    exists out, u', k, fops, rops. rewrite Hrun.
    split; [reflexivity |].
    split; [rewrite Hlog; apply Hlog2 |].
    split; [rewrite Hroom; exact Hroom1 |].
    split; [exact Hfops |]. split; [exact Hrops |]. split; [exact Hk |].
    split; [exact Hdisc |]. split; [| exact Hcol].
    rewrite <- Hpend2. exact Hpend.
  - exists (Failed ("Write incomplete: " ++ show_nat n ++ "/"
                    ++ show_nat (String.length buf) ++ " bytes")), u2, k, fops, [].
    split; [reflexivity |].
    split; [apply (Hlog2 []) |].
    split; [exact Hroom1 |].
    split; [exact Hfops |]. split; [constructor |]. split; [exact Hk |].
    split; [exact Hdisc |]. split; [| split; reflexivity].
    rewrite <- Hpend2. reflexivity.
Qed.

Lemma error_is_completion (l : string) :
  is_error_response l = true -> completion l = true.
Proof. unfold is_error_response, completion. intros ->. apply orb_true_r. Qed.

Lemma error_is_command_response (l : string) :
  is_error_response l = true -> is_command_response l = true.
Proof.
  unfold is_error_response, is_command_response, startswith. intros H.
  rewrite (prefix_weaken "<<" "ERROR" l H). reflexivity.
Qed.

Lemma check_results_nonempty (lines : list string) (found : bool) :
  lines <> [] ->
  check_results lines found
  = let filtered := filter is_command_response lines in
    let reported := match filtered with [] => lines | _ => filtered end in
    match List.find is_error_response filtered with
    | Some line => mk_result false reported (Some line)
    | None => mk_result found reported
                (if found then None else Some "Response incomplete (timeout)")
    end.
Proof. destruct lines; [contradiction | reflexivity]. Qed.

(** In what the read loop accumulates, a completion line can only be the
    last one, and it is there exactly when [found_completion] is set. *)
Lemma collected_completion (raws lines : list string) (found : bool) :
  collects [] raws (Collected lines found) ->
  (found = true <-> exists l, In l lines /\ completion l = true)
  /\ (forall l, In l lines -> completion l = true -> l = last lines "").
Proof.
  cbn [collects app]. intros (-> & _ & Hshape). destruct found.
  - destruct Hshape as (init & final & -> & Hinit & Hfinal).
    rewrite map_app. cbn [map]. rewrite last_last. split.
    + split; [intros _ | reflexivity]. exists (strip final).
      split; [apply in_or_app; right; left; reflexivity | exact Hfinal].
    + intros l Hin Hl. apply in_app_or in Hin as [Hin | [<- | []]]; [| reflexivity].
      apply in_map_iff in Hin as (raw & <- & Hraw).
      rewrite Forall_forall in Hinit. rewrite (Hinit raw Hraw) in Hl. discriminate.
  - assert (Hno : forall l, In l (map strip raws) -> completion l = false).
    { intros l Hin. apply in_map_iff in Hin as (raw & <- & Hraw).
      rewrite Forall_forall in Hshape. auto. }
    split.
    + split; [discriminate |]. intros (l & Hin & Hl).
      rewrite (Hno l Hin) in Hl. discriminate.
    + intros l Hin Hl. rewrite (Hno l Hin) in Hl. discriminate.
Qed.

(** The result contract of [# Check results]. *)
Lemma check_results_contract (raws lines : list string) (found : bool) :
  collects [] raws (Collected lines found) ->
  let r := check_results lines found in
  let filtered := filter is_command_response lines in
  (success r = true <->
     (exists l, In l lines /\ completion l = true)
     /\ (forall l, In l filtered -> is_error_response l = false))
  /\ (forall l, In l filtered -> is_error_response l = true ->
        success r = false /\ error r = Some l)
  /\ (lines = [] ->
        success r = false /\ error r = Some "No response received")
  /\ (lines <> [] -> found = false ->
        success r = false /\ error r = Some "Response incomplete (timeout)").
Proof.
  intros Hcol r filtered.
  destruct (collected_completion raws lines found Hcol) as [Hfound Hlast].
  assert (Hfind : forall l, List.find is_error_response filtered = Some l ->
                            In l filtered /\ is_error_response l = true)
    by (intros l; apply find_some).
  assert (Huniq : forall l l', In l filtered -> is_error_response l = true ->
                               In l' filtered -> is_error_response l' = true ->
                               l = l').
  { intros l l' Hl He Hl' He'. subst filtered.
    apply filter_In in Hl as [Hl _]. apply filter_In in Hl' as [Hl' _].
    rewrite (Hlast l Hl (error_is_completion l He)).
    rewrite (Hlast l' Hl' (error_is_completion l' He')). reflexivity. }
  assert (Hcase : lines = [] \/ lines <> [])
    by (destruct lines; [left; reflexivity | right; discriminate]).
  destruct Hcase as [Hnil | Hne].
  - subst lines r filtered. cbn. repeat split; try discriminate; try contradiction.
    intros [(l & [] & _) _].
  - subst r. rewrite (check_results_nonempty lines found Hne). cbv zeta.
    fold filtered.
    destruct (List.find is_error_response filtered) as [e |] eqn:Efind.
    + destruct (Hfind e eq_refl) as [Hin He]. cbn [success error].
      split; [| split; [| split]].
      * split; [discriminate |]. intros [_ Hnone].
        rewrite (Hnone e Hin) in He. discriminate.
      * intros l Hl Hel. split; [reflexivity |].
        f_equal. apply Huniq; assumption.
      * intros H. contradiction.
      * intros _ ->. exfalso.
        destruct Hfound as [_ Hfound].
        assert (false = true); [| discriminate].
        apply Hfound. exists e. split; [| apply error_is_completion; exact He].
        subst filtered. apply filter_In in Hin as [Hin _]. exact Hin.
    + pose proof (find_none _ _ Efind) as Hnone. cbn [success error].
      split; [| split; [| split]].
      * rewrite Hfound. split; [intros H; split; [exact H | exact Hnone] | tauto].
      * intros l Hl Hel. rewrite (Hnone l Hl) in Hel. discriminate.
      * intros H. contradiction.
      * intros _ ->. split; reflexivity.
Qed.

End Exchange.

Section Order.

Lemma precedes_split (p q : uart_op -> bool) (before after : list uart_op) :
  (forall x, In x after -> p x = false) ->
  (forall x, In x before -> q x = false) ->
  precedes p q (before ++ after)%list.
Proof.
  intros Hafter Hbefore i j a b Hi Hj Hp Hq.
  destruct (Nat.lt_ge_cases i (List.length before)) as [Hlt | Hge].
  - destruct (Nat.lt_ge_cases j (List.length before)) as [Hjlt | Hjge]; [| lia].
    rewrite nth_error_app1 in Hj by exact Hjlt.
    apply nth_error_In in Hj. rewrite (Hbefore b Hj) in Hq. discriminate.
  - rewrite nth_error_app2 in Hi by exact Hge.
    apply nth_error_In in Hi. rewrite (Hafter a Hi) in Hp. discriminate.
Qed.

Lemma flush_ops_kinds (ops : list uart_op) :
  Forall (fun op => flush_op op = true) ops ->
  forall x, In x ops -> is_write x = false /\ is_readline x = false.
Proof.
  rewrite Forall_forall. intros H x Hx. specialize (H x Hx).
  destruct x; cbn in *; split; congruence.
Qed.

Lemma poll_ops_kinds (ops : list uart_op) :
  Forall (fun op => poll_op op = true) ops ->
  forall x, In x ops -> is_write x = false /\ is_read x = false.
Proof.
  rewrite Forall_forall. intros H x Hx. specialize (H x Hx).
  destruct x; cbn in *; split; congruence.
Qed.

Lemma flush_ops_no_lines (ops : list uart_op) :
  Forall (fun op => flush_op op = true) ops -> lines_read ops = [].
Proof.
  induction 1 as [| op ops Hop _ IH]; [reflexivity |].
  destruct op; cbn in *; congruence.
Qed.

(** The order of one exchange: clearing operations, the write, polls. *)
Lemma exchange_shape_order (flush_ops read_ops : list uart_op)
    (data : string) (n : nat) :
  Forall (fun op => flush_op op = true) flush_ops ->
  Forall (fun op => poll_op op = true) read_ops ->
  let ops := (flush_ops ++ OpWrite data n :: read_ops)%list in
  precedes is_read is_write ops
  /\ precedes is_write is_readline ops
  /\ precedes is_read is_readline ops.
Proof.
  intros Hf Hr ops. subst ops.
  pose proof (flush_ops_kinds _ Hf) as Kf.
  pose proof (poll_ops_kinds _ Hr) as Kr.
  split; [| split].
  - apply precedes_split.
    + intros x [<- | Hx]; [reflexivity | apply Kr, Hx].
    + intros x Hx. apply Kf, Hx.
  - replace (flush_ops ++ OpWrite data n :: read_ops)%list
      with ((flush_ops ++ [OpWrite data n]) ++ read_ops)%list
      by (rewrite <- app_assoc; reflexivity).
    apply precedes_split.
    + intros x Hx. apply Kr, Hx.
    + intros x Hx. apply in_app_or in Hx as [Hx | [<- | []]];
        [apply Kf, Hx | reflexivity].
  - apply precedes_split.
    + intros x [<- | Hx]; [reflexivity | apply Kr, Hx].
    + intros x Hx. apply Kf, Hx.
Qed.

Lemma check_results_response (lines : list string) (found : bool) :
  response (check_results lines found)
  = match filter is_command_response lines with
    | [] => lines
    | kept => kept
    end.
Proof.
  destruct lines as [| l0 rest]; [reflexivity |].
  rewrite check_results_nonempty by discriminate. cbv zeta.
  destruct (List.find is_error_response _); cbn [response];
    destruct (filter is_command_response (l0 :: rest)); reflexivity.
Qed.

Lemma check_results_response_incl (lines : list string) (found : bool) :
  forall l, In l (response (check_results lines found)) -> In l lines.
Proof.
  intros l. rewrite check_results_response.
  destruct (filter is_command_response lines) as [| x kept] eqn:E; [auto |].
  rewrite <- E. intros H. apply filter_In in H as [H _]. exact H.
Qed.

Lemma send_command_nonempty (cmd : string) (polls : nat) (u : uart) :
  strip cmd <> "" ->
  send_command cmd polls u
  = match transfer (strip cmd) polls u with
    | Some (out, u') => Some (result_of out, u')
    | None => None
    end.
Proof.
  intros Hne. unfold send_command.
  destruct (strip cmd =? "")%string eqn:E; [apply String.eqb_eq in E; contradiction |].
  unfold bind, ret. destruct (transfer (strip cmd) polls u) as [[out u'] |]; reflexivity.
Qed.

End Order.

(** C7: for the lines accumulated by an exchange that reaches the end of
    its read loop, the reported response is the sublist, in order, of the
    lines starting with '<<' or '>>', and the full list when no line starts
    with either; for ["T,91.2,0"; "<<OK"] it is ["<<OK"]. *)
Theorem reported_response (cmd : string) (polls : nat) (u u' : uart)
    (lines : list string) (found : bool)
    (Hcmd : strip cmd <> "")
    (Hrun : transfer (strip cmd) polls u = Some (Collected lines found, u')) :
  let kept :=
    filter (fun line => startswith line "<<" || startswith line ">>") lines in
  exists r,
    send_command cmd polls u = Some (r, u')
    /\ response r = match kept with [] => lines | _ => kept end
    /\ (kept = [] -> response r = lines)
    /\ (kept <> [] -> response r = kept)
    /\ response (check_results ["T,91.2,0"; "<<OK"] true) = ["<<OK"].
Proof.
  intros kept. exists (check_results lines found).
  rewrite send_command_nonempty by exact Hcmd. rewrite Hrun. cbn [result_of].
  assert (H : response (check_results lines found)
              = match kept with [] => lines | _ => kept end).
  { rewrite check_results_response.
    change (filter is_command_response lines) with kept.
    destruct kept; reflexivity. }
  split; [reflexivity |]. split; [exact H |]. split; [| split].
  - intros E. rewrite H, E. reflexivity.
  - intros E. rewrite H. destruct kept; [contradiction | reflexivity].
  - reflexivity.
Qed.

(** A telemetry line arrives just ahead of the acknowledgement. *)
Lemma reported_response_witness :
  let u := mk_uart "" [""; "T,91.2,0" ++ String LF "" ++ "<<OK" ++ String LF ""] None [] in
  exists r u', send_command "status" 5 u = Some (r, u') /\ response r = ["<<OK"].
Proof.
  intros u.
  assert (Hcmd : strip "status" <> "") by (vm_compute; discriminate).
  destruct (transfer (strip "status") 5 u) as [[out u'] |] eqn:E;
    [| vm_compute in E; discriminate].
  assert (Hout : out = Collected ["T,91.2,0"; "<<OK"] true)
    by (vm_compute in E; congruence).
  subst out.
  destruct (reported_response "status" 5 u u' _ _ Hcmd E) as (r & Hr & Hresp & _).
  exists r, u'. split; [exact Hr |]. rewrite Hresp. reflexivity.
Defined.

(** C2: an exchange with an empty command fails at once.  Otherwise, when
    the read loop runs to its end with the accumulated lines [lines]:
    success is true exactly when some line starts with '<<OK' or '<<ERROR'
    (the completion flag) and no filtered line starts with '<<ERROR'; with
    no line read the error is "No response received"; with lines but no
    completion line it is "Response incomplete (timeout)"; a filtered line
    starting with '<<ERROR' makes success false and is the error text.
    When the exchange ends early (short write, undecodable line) success is
    false and no decoded line read so far was a completion line. *)
Theorem send_command_contract (cmd : string) (polls : nat) (u : uart) :
  (strip cmd = "" ->
     send_command cmd polls u
     = Some (mk_result false [] (Some "Empty command"), u))
  /\ (strip cmd <> "" ->
      exists out u' ops r,
        transfer (strip cmd) polls u = Some (out, u')
        /\ send_command cmd polls u = Some (r, u')
        /\ log u' = (rev ops ++ log u)%list
        /\ match out with
           | Collected lines found =>
               let filtered := filter is_command_response lines in
               lines = map strip (lines_read ops)
               /\ (found = true <->
                     exists l, In l lines
                               /\ (startswith l "<<OK" || startswith l "<<ERROR") = true)
               /\ (success r = true <->
                     found = true
                     /\ (forall l, In l filtered -> startswith l "<<ERROR" = false))
               /\ (lines = [] ->
                     success r = false /\ error r = Some "No response received")
               /\ (lines <> [] -> found = false ->
                     success r = false
                     /\ error r = Some "Response incomplete (timeout)")
               /\ (forall l, In l filtered -> startswith l "<<ERROR" = true ->
                     success r = false /\ error r = Some l)
           | Failed e =>
               success r = false /\ error r = Some e /\ response r = []
               /\ (forall raw, In raw (lines_read ops) -> decode raw = Some raw ->
                     (startswith (strip raw) "<<OK"
                      || startswith (strip raw) "<<ERROR") = false)
           end).
Proof.
  split.
  - intros E. unfold send_command. rewrite E. reflexivity.
  - intros Hcmd.
    destruct (transfer_trace (strip cmd) polls u)
      as (out & u' & k & fops & rops & Hrun & Hlog & _ & Hf & Hr & _ & _ & _ & Hout).
    set (buf := strip cmd ++ String LF "") in *.
    set (n := accepted u buf) in *.
    set (ops := (fops ++ OpAny 0 :: OpWrite buf n :: rops)%list) in *.
    assert (Hlines : lines_read ops = lines_read rops).
    { subst ops. rewrite lines_read_app, (flush_ops_no_lines _ Hf). reflexivity. }
    exists out, u', ops, (result_of out).
    split; [exact Hrun |].
    split; [rewrite send_command_nonempty by exact Hcmd; now rewrite Hrun |].
    split; [exact Hlog |].
    rewrite Hlines.
    destruct (n =? String.length buf)%nat.
    + destruct out as [e | lines found]; cbn [result_of].
      * destruct Hout as (_ & good & bad & Hraws & Hbad & _ & Hnc).
        cbn [success error response]. repeat split.
        intros raw Hin Hdec. rewrite Hraws in Hin.
        apply in_app_or in Hin as [Hin | [<- | []]].
        -- rewrite Forall_forall in Hnc. apply (Hnc raw Hin).
        -- congruence.
      * pose proof (collected_completion _ _ _ Hout) as [Hfound _].
        pose proof (check_results_contract _ _ _ Hout) as (Hs & He & Hnil & Hto).
        cbv zeta in *.
        split; [apply Hout |]. split; [exact Hfound |].
        split; [rewrite Hs, Hfound; reflexivity |].
        split; [exact Hnil |]. split; [exact Hto | exact He].
    + destruct Hout as [-> ->]. cbn [result_of success error response lines_read].
      repeat split. intros raw [].
Qed.

(** The acknowledged, the silent and the refused exchange. *)
Lemma send_command_contract_witness :
  let nl := String LF "" in
  (exists u', send_command "status" 5 (mk_uart "" [""; "<<OK" ++ nl] None [])
              = Some (mk_result true ["<<OK"] None, u'))
  /\ (exists u', send_command "status" 5 (mk_uart "" [] None [])
                 = Some (mk_result false [] (Some "No response received"), u'))
  /\ (exists u', send_command "reg coffee x" 5
                   (mk_uart "" [""; "<<ERROR bad temp" ++ nl] None [])
                 = Some (mk_result false ["<<ERROR bad temp"]
                           (Some "<<ERROR bad temp"), u'))
  /\ (exists r u', send_command "status" 5 (mk_uart "" [""; "T,91.2,0" ++ nl] None [])
                   = Some (r, u')
                   /\ success r = false
                   /\ error r = Some "Response incomplete (timeout)").
Proof.
  intros nl.
  split; [eexists; vm_compute; reflexivity |].
  split; [eexists; vm_compute; reflexivity |].
  split; [eexists; vm_compute; reflexivity |].
  set (u := mk_uart "" [""; "T,91.2,0" ++ nl] None []).
  destruct (send_command_contract "status" 5 u) as [_ H].
  destruct H as (out & u' & ops & r & Hrun & Hsend & _ & Hout);
    [vm_compute; discriminate |].
  assert (E : out = Collected ["T,91.2,0"] false)
    by (vm_compute in Hrun; congruence).
  subst out. destruct Hout as (_ & _ & _ & _ & Hto & _).
  exists r, u'. split; [exact Hsend |]. apply Hto; [discriminate | reflexivity].
Defined.

(** C3: whatever is unread on the port when the call starts ([stale]),
    together with the chunks that arrive while the buffer is being cleared,
    is read and dropped before the command is written, and the poll just
    before the write finds the buffer empty; every raw line of the read
    loop, and so every reported response line, is made of bytes that
    arrived later. *)
Theorem stale_bytes_discarded (cmd : string) (polls : nat)
    (stale : string) (arrivals : list string) (room : option nat)
    (Hcmd : strip cmd <> "") :
  let u := mk_uart stale arrivals room [] in
  exists r u' k flush_ops n read_ops,
    send_command cmd polls u = Some (r, u')
    /\ rev (log u')
       = (flush_ops ++ OpAny 0 :: OpWrite (strip cmd ++ String LF "") n :: read_ops)%list
    /\ Forall (fun op => flush_op op = true) flush_ops
    /\ Forall (fun op => poll_op op = true) read_ops
    /\ (k <= List.length arrivals)%nat
    /\ discarded flush_ops = stale ++ join (firstn k arrivals)
    /\ join (skipn k arrivals) = join (lines_read read_ops) ++ pending u'
    /\ (forall l, In l (response r) ->
          exists raw, In raw (lines_read read_ops) /\ l = strip raw).
Proof.
  intros u.
  destruct (transfer_trace (strip cmd) polls u)
    as (out & u' & k & fops & rops & Hrun & Hlog & _ & Hf & Hr & Hk & Hdisc & Hpend & Hout).
  set (buf := strip cmd ++ String LF "") in *.
  set (n := accepted u buf) in *.
  exists (result_of out), u', k, fops, n, rops.
  split; [rewrite send_command_nonempty by exact Hcmd; now rewrite Hrun |].
  split; [rewrite Hlog; subst u; cbn [log]; now rewrite app_nil_r, rev_involutive |].
  split; [exact Hf |]. split; [exact Hr |]. split; [exact Hk |].
  split; [exact Hdisc |]. split; [exact Hpend |].
  intros l Hin.
  destruct (n =? String.length buf)%nat.
  - destruct out as [e | lines found]; cbn [result_of response] in Hin; [contradiction |].
    apply check_results_response_incl in Hin.
    destruct Hout as (-> & _). cbn [app] in Hin.
    apply in_map_iff in Hin as (raw & <- & Hraw). exists raw. auto.
  - destruct Hout as [-> _]. cbn [result_of response] in Hin. contradiction.
Qed.

(** A telemetry line sits in the buffer when [status] is sent. *)
Lemma stale_bytes_discarded_witness :
  let nl := String LF "" in
  let u := mk_uart ("T,90.0,0" ++ nl) [""; ""; "<<OK" ++ nl] None [] in
  (exists u', send_command "status" 5 u = Some (mk_result true ["<<OK"] None, u'))
  /\ exists r u' flush_ops n read_ops,
       send_command "status" 5 u = Some (r, u')
       /\ rev (log u')
          = (flush_ops ++ OpAny 0 :: OpWrite ("status" ++ nl) n :: read_ops)%list
       /\ (forall l, In l (response r) ->
             exists raw, In raw (lines_read read_ops) /\ l = strip raw).
Proof.
  intros nl u. split; [eexists; vm_compute; reflexivity |].
  assert (Hcmd : strip "status" <> "") by (vm_compute; discriminate).
  destruct (stale_bytes_discarded "status" 5 ("T,90.0,0" ++ nl)
              [""; ""; "<<OK" ++ nl] None Hcmd)
    as (r & u' & k & fops & n & rops & Hsend & Hlog & _ & _ & _ & _ & _ & Hresp).
  exists r, u', fops, n, rops. split; [exact Hsend |]. split; [exact Hlog | exact Hresp].
Defined.

(** C4 (as the code has it): within one exchange the buffer is cleared
    first, then the command is written, then the read loop runs: every
    discarding read comes before the write and every line read comes
    after it. *)
Theorem exchange_order (cmd : string) (polls : nat) (u : uart)
    (Hcmd : strip cmd <> "") :
  exists r u' flush_ops n read_ops,
    let ops := (flush_ops ++ OpWrite (strip cmd ++ String LF "") n :: read_ops)%list in
    send_command cmd polls u = Some (r, u')
    /\ log u' = (rev ops ++ log u)%list
    /\ flush_ops <> []
    /\ Forall (fun op => flush_op op = true) flush_ops
    /\ Forall (fun op => poll_op op = true) read_ops
    /\ precedes is_read is_write ops
    /\ precedes is_write is_readline ops
    /\ precedes is_read is_readline ops.
Proof.
  destruct (transfer_trace (strip cmd) polls u)
    as (out & u' & k & fops & rops & Hrun & Hlog & _ & Hf & Hr & _).
  set (buf := strip cmd ++ String LF "") in *.
  set (n := accepted u buf) in *.
  assert (Hf' : Forall (fun op => flush_op op = true) (fops ++ [OpAny 0])%list)
    by (apply Forall_app; split; [exact Hf | repeat constructor]).
  exists (result_of out), u', (fops ++ [OpAny 0])%list, n, rops. cbv zeta.
  split; [rewrite send_command_nonempty by exact Hcmd; now rewrite Hrun |].
  split; [rewrite Hlog, <- app_assoc; reflexivity |].
  split; [destruct fops; discriminate |].
  split; [exact Hf' |]. split; [exact Hr |].
  apply exchange_shape_order; assumption.
Qed.

(** With one stale line in the buffer: poll, read, poll, write, polls. *)
Lemma exchange_order_witness :
  let nl := String LF "" in
  let u := mk_uart ("T,90.0,0" ++ nl) [""; ""; "<<OK" ++ nl] None [] in
  (exists r u', send_command "status" 5 u = Some (r, u')
                /\ rev (log u')
                   = [OpAny 9; OpRead ("T,90.0,0" ++ nl); OpAny 0;
                      OpWrite ("status" ++ nl) 7;
                      OpAny 5; OpReadline ("<<OK" ++ nl)])
  /\ exists r u', send_command "status" 5 u = Some (r, u')
                  /\ precedes is_read is_write (rev (log u')).
Proof.
  intros nl u. split; [eexists; eexists; split; vm_compute; reflexivity |].
  assert (Hcmd : strip "status" <> "") by (vm_compute; discriminate).
  destruct (exchange_order "status" 5 u Hcmd)
    as (r & u' & fops & n & rops & Hsend & Hlog & _ & _ & _ & Hrw & _).
  exists r, u'. split; [exact Hsend |].
  rewrite Hlog. subst u. cbn [log]. rewrite app_nil_r, rev_involutive. exact Hrw.
Defined.

(** C4 as stated fails: the write is not the first operation; with a stale
    line in the buffer a discarding read comes before it. *)
Lemma transmit_first_counterexample :
  let nl := String LF "" in
  let u := mk_uart ("T,90.0,0" ++ nl) [""; ""; "<<OK" ++ nl] None [] in
  exists r u',
    send_command "status" 5 u = Some (r, u')
    /\ nth_error (rev (log u')) 1 = Some (OpRead ("T,90.0,0" ++ nl))
    /\ nth_error (rev (log u')) 3 = Some (OpWrite ("status" ++ nl) 7)
    /\ ~ precedes is_write is_read (rev (log u')).
Proof.
  intros nl u.
  destruct (send_command "status" 5 u) as [[r u'] |] eqn:E;
    [| vm_compute in E; discriminate].
  exists r, u'. split; [reflexivity |].
  assert (Hlog : rev (log u')
                 = [OpAny 9; OpRead ("T,90.0,0" ++ nl); OpAny 0;
                    OpWrite ("status" ++ nl) 7;
                    OpAny 5; OpReadline ("<<OK" ++ nl)]).
  { vm_compute in E. injection E as _ <-. vm_compute. reflexivity. }
  rewrite Hlog. split; [reflexivity |]. split; [reflexivity |].
  intros H.
  specialize (H 3%nat 1%nat (OpWrite ("status" ++ nl) 7) (OpRead ("T,90.0,0" ++ nl))
                eq_refl eq_refl eq_refl eq_refl).
  lia.
Qed.

(** ** Control server *)

Section Routes.

Lemma find_from_present (sub a b : string) : forall i,
  0 <= i -> i <= find_from sub (a ++ sub ++ b) i.
Proof.
  induction a as [| c a IH]; intros i Hi.
  - cbn [append].
    assert (H : prefix sub (sub ++ b) = true) by (apply prefix_append; eauto).
    destruct (sub ++ b); cbn [find_from]; rewrite H; lia.
  - cbn [append find_from].
    destruct (prefix sub (String c (a ++ sub ++ b))); [lia |].
    specialize (IH (i + 1) ltac:(lia)). lia.
Qed.

Lemma find_from_absent (sub s : string) : forall i,
  (forall a b, s <> a ++ sub ++ b) -> find_from sub s i = -1.
Proof.
  induction s as [| c s IH]; intros i Habs.
  - cbn [find_from]. destruct (prefix sub "") eqn:E; [| reflexivity].
    apply prefix_append in E as [t Ht]. exfalso. apply (Habs "" t). exact Ht.
  - cbn [find_from]. destruct (prefix sub (String c s)) eqn:E.
    + apply prefix_append in E as [t Ht]. exfalso. apply (Habs "" t). exact Ht.
    + apply IH. intros a b Hs. apply (Habs (String c a) b). cbn [append].
      now rewrite Hs.
Qed.

(** [find] gives -1 exactly when the text has no occurrence. *)
Lemma find_absent_iff (s sub : string) :
  find s sub = -1 <-> (forall a b, s <> a ++ sub ++ b).
Proof.
  unfold find. split.
  - intros H a b ->. pose proof (find_from_present sub a b 0 ltac:(lia)). lia.
  - apply find_from_absent.
Qed.

(** Every call yields a result. *)
Lemma send_command_total (cmd : string) (polls : nat) (u : uart) :
  exists r u', send_command cmd polls u = Some (r, u').
Proof.
  destruct (string_dec (strip cmd) "") as [E | Hne].
  - unfold send_command. rewrite E. cbn. unfold ret. eauto.
  - destruct (transfer_trace (strip cmd) polls u) as (out & u' & _ & _ & _ & Hrun & _).
    rewrite send_command_nonempty by exact Hne. rewrite Hrun. eauto.
Qed.

(** The request line of a request whose first two tokens are known. *)
Lemma route_request_line (request method path : string) (rest : list string) :
  split " " (hd "" (split CRLF request)) = method :: path :: rest ->
  exists request_line others,
    split CRLF request = request_line :: others
    /\ split " " request_line = method :: path :: rest.
Proof.
  destruct (split CRLF request) as [| l ls]; cbn [hd].
  - vm_compute. discriminate.
  - intros H. eauto.
Qed.

End Routes.

(** C8: a GET /status request is always answered with status line
    "HTTP/1.1 200 OK" and a JSON object; when parsing gives a status the
    object has its temperature, setpoint, duty_cycle and state (and the raw
    line), and when parsing gives none it is exactly
    {temperature: null, setpoint: 0, duty_cycle: 0, state: "unknown"}. *)
Theorem status_route_always_ok (polls : nat) (request : string)
    (rest : list string) (u : uart)
    (Hroute : split " " (hd "" (split CRLF request)) = "GET" :: "/status" :: rest) :
  exists resp u' rep,
    send_command "status" polls u = Some (resp, u')
    /\ handle_request polls request u = Some ([rep], u')
    /\ hd "" (split CRLF (head rep)) = "HTTP/1.1 200 OK"
    /\ (forall st, parse_status resp = Some st ->
          content rep
          = Json (JDict [("temperature", JFloat (temperature st));
                         ("setpoint", JFloat (setpoint st));
                         ("duty_cycle", JInt (duty_cycle st));
                         ("state", JStr (state st));
                         ("raw", JStr (raw st))]))
    /\ (parse_status resp = None ->
          content rep
          = Json (JDict [("temperature", JNull);
                         ("setpoint", JInt 0);
                         ("duty_cycle", JInt 0);
                         ("state", JStr "unknown")])).
Proof.
  destruct (route_request_line _ _ _ _ Hroute) as (line & others & Hlines & Hparts).
  destruct (send_command_total "status" polls u) as (resp & u' & Hsend).
  exists resp, u',
    (mk_reply JSON_HEAD
       (Json match parse_status resp with
             | Some st => status_json st
             | None => no_status_json
             end)).
  split; [exact Hsend |]. split; [| split; [| split]].
  - unfold handle_request. rewrite Hlines, Hparts.
    cbn [List.length Nat.leb item nth]. cbn [String.eqb Ascii.eqb Bool.eqb andb].
    unfold bind. rewrite Hsend. reflexivity.
  - vm_compute. reflexivity.
  - intros st ->. reflexivity.
  - intros ->. reflexivity.
Qed.

(** A poll of the status page while the controller reports a reading. *)
Lemma status_route_always_ok_witness :
  let nl := String LF "" in
  let request := "GET /status HTTP/1.1" ++ CRLF ++ "Host: silvia" ++ CRLFCRLF in
  let u := mk_uart "" [""; ">>STATUS,93.4,108.0,42,heating" ++ nl ++ "<<OK" ++ nl] None [] in
  exists rep u',
    handle_request 5 request u = Some ([rep], u')
    /\ hd "" (split CRLF (head rep)) = "HTTP/1.1 200 OK".
Proof.
  intros nl request u.
  destruct (status_route_always_ok 5 request ["HTTP/1.1"] u)
    as (resp & u' & rep & _ & Hrun & Hhead & _).
  - vm_compute. reflexivity.
  - exists rep, u'. split; [exact Hrun | exact Hhead].
Defined.

(** C10: a POST /cmd request whose text has no blank line after the
    headers runs no serial command (the port is left as it was) and sends
    nothing to the client, as does a request for any route that is not
    served. *)
Theorem cmd_without_body_silent (polls : nat) (request : string)
    (rest : list string) (u : uart)
    (Hroute : split " " (hd "" (split CRLF request)) = "POST" :: "/cmd" :: rest)
    (Hnosep : forall a b, request <> a ++ CRLFCRLF ++ b) :
  handle_request polls request u = Some ([], u)
  /\ (forall data, decode data = Some request ->
        handle_client polls (Some data) u = Some ([], u))
  /\ (forall other method path rest',
        split " " (hd "" (split CRLF other)) = method :: path :: rest' ->
        (method, path) <> ("GET", "/") ->
        (method, path) <> ("GET", "/status") ->
        (method, path) <> ("POST", "/cmd") ->
        handle_request polls other u = Some ([], u)).
Proof.
  assert (H : handle_request polls request u = Some ([], u)).
  { destruct (route_request_line _ _ _ _ Hroute) as (line & others & Hlines & Hparts).
    unfold handle_request. rewrite Hlines, Hparts.
    cbn [List.length Nat.leb item nth]. cbn [String.eqb Ascii.eqb Bool.eqb andb].
    apply find_absent_iff in Hnosep. rewrite Hnosep. reflexivity. }
  split; [exact H |]. split.
  - intros data Hdec. unfold handle_client. rewrite Hdec. exact H.
  - intros other method path rest' Hother H1 H2 H3.
    destruct (route_request_line _ _ _ _ Hother) as (line & others & Hlines & Hparts).
    unfold handle_request. rewrite Hlines, Hparts.
    cbn [List.length Nat.leb item nth].
    destruct (method =? "GET")%string eqn:Eg;
      destruct (method =? "POST")%string eqn:Ep;
      destruct (path =? "/")%string eqn:E1;
      destruct (path =? "/status")%string eqn:E2;
      destruct (path =? "/cmd")%string eqn:E3;
      cbn [andb]; try reflexivity;
      exfalso;
      repeat match goal with
             | E : (_ =? _)%string = true |- _ => apply String.eqb_eq in E
             end;
      subst; try discriminate; auto.
Qed.

(** A request cut off after its headers' first line break. *)
Lemma cmd_without_body_silent_witness :
  let request := "POST /cmd HTTP/1.1" ++ CRLF ++ "Host: silvia" ++ CRLF in
  let u := mk_uart "" [""; "<<OK" ++ String LF ""] None [] in
  handle_request 5 request u = Some ([], u).
Proof.
  intros request u.
  apply (cmd_without_body_silent 5 request ["HTTP/1.1"] u).
  - vm_compute. reflexivity.
  - apply find_absent_iff. vm_compute. reflexivity.
Defined.

(** * Further properties *)

(** ** Results of an exchange *)

Section Results.

Lemma filter_last_kept {A : Type} (p : A -> bool) (init : list A) (x d : A) :
  p x = true -> last (filter p (init ++ [x])) d = x.
Proof.
  intros Hx. rewrite filter_app. cbn [filter]. rewrite Hx. apply last_last.
Qed.

Lemma ok_is_command_response (l : string) :
  startswith l "<<OK" = true -> is_command_response l = true.
Proof.
  unfold is_command_response, startswith. intros H.
  rewrite (prefix_weaken "<<" "OK" l H). reflexivity.
Qed.

Lemma completion_is_command_response (l : string) :
  completion l = true -> is_command_response l = true.
Proof.
  unfold completion. intros H. apply orb_true_iff in H as [H | H].
  - apply ok_is_command_response, H.
  - apply error_is_command_response, H.
Qed.

(** The reported lines are all framed, or none of them is. *)
Lemma check_results_framing (lines : list string) (found : bool) :
  let reported := response (check_results lines found) in
  (Forall (fun l => is_command_response l = true) reported
   /\ reported = filter is_command_response lines)
  \/ (Forall (fun l => is_command_response l = false) reported
      /\ filter is_command_response lines = []).
Proof.
  cbv zeta. rewrite check_results_response.
  destruct (filter is_command_response lines) as [| x kept] eqn:E.
  - right. split; [| reflexivity]. apply Forall_forall. intros l Hl.
    destruct (is_command_response l) eqn:El; [| reflexivity].
    assert (In l (filter is_command_response lines)) by (apply filter_In; auto).
    rewrite E in H. contradiction.
  - left. split; [| reflexivity]. rewrite <- E. apply Forall_forall.
    intros l Hl. apply filter_In in Hl. apply Hl.
Qed.

(** Every way [send_command] can end. *)
Lemma send_command_cases (cmd : string) (polls : nat) (u u' : uart) (r : result) :
  send_command cmd polls u = Some (r, u') ->
  (exists e, r = mk_result false [] (Some e))
  \/ (exists raws lines found,
        collects [] raws (Collected lines found)
        /\ r = check_results lines found).
Proof.
  intros Hrun.
  destruct (string_dec (strip cmd) "") as [E | Hne].
  - unfold send_command in Hrun. rewrite E in Hrun. cbn in Hrun.
    unfold ret in Hrun. injection Hrun as <- _. left. eauto.
  - rewrite send_command_nonempty in Hrun by exact Hne.
    destruct (transfer_trace (strip cmd) polls u)
      as (out & u2 & k & fops & rops & Ht & _ & _ & _ & _ & _ & _ & _ & Hout).
    rewrite Ht in Hrun. injection Hrun as <- _.
    destruct (_ =? _)%nat.
    + destruct out as [e | lines found]; cbn [result_of].
      * left. eauto.
      * right. exists (lines_read rops), lines, found. auto.
    + destruct Hout as [-> _]. left. cbn [result_of]. eauto.
Qed.

End Results.

(** X1: a result is successful exactly when it carries no error text;
    a successful result is not empty, every reported line starts with
    '<<' or '>>', and the last one starts with '<<OK'. *)
Theorem success_means_acknowledged (cmd : string) (polls : nat)
    (u u' : uart) (r : result)
    (Hrun : send_command cmd polls u = Some (r, u')) :
  (success r = true <-> error r = None)
  /\ (success r = true ->
        response r <> []
        /\ Forall (fun l => (startswith l "<<" || startswith l ">>") = true)
             (response r)
        /\ startswith (last (response r) "") "<<OK" = true).
Proof.
  destruct (send_command_cases _ _ _ _ _ Hrun)
    as [[e ->] | (raws & lines & found & Hcol & ->)].
  - cbn. split; [split; discriminate | discriminate].
  - pose proof (collected_completion _ _ _ Hcol) as [Hfound Hlast].
    pose proof (check_results_contract _ _ _ Hcol) as (Hs & He & Hnil & Hto).
    cbv zeta in *.
    assert (Hcase : lines = [] \/ lines <> [])
      by (destruct lines; [left; reflexivity | right; discriminate]).
    destruct Hcase as [-> | Hne].
    { cbn. split; [split; discriminate | discriminate]. }
    assert (Hiff : success (check_results lines found) = true
                   <-> error (check_results lines found) = None).
    { rewrite (check_results_nonempty lines found Hne). cbv zeta.
      destruct (List.find is_error_response _); cbn [success error];
        [split; discriminate |].
      destruct found; split; try reflexivity; discriminate. }
    split; [exact Hiff |].
    intros Hsucc. apply Hs in Hsucc as Hparts. destruct Hparts as [Hex Hnoerr].
    apply Hfound in Hex as ->.
    destruct Hcol as (Hlines & _ & init & final & Hraws & Hinit & Hfinal).
    cbn [app] in Hlines. rewrite Hraws, map_app in Hlines. cbn [map] in Hlines.
    assert (Hframed : is_command_response (strip final) = true)
      by (apply completion_is_command_response, Hfinal).
    assert (Hin : In (strip final) (filter is_command_response lines)).
    { apply filter_In. split; [| exact Hframed].
      rewrite Hlines. apply in_or_app. right. left. reflexivity. }
    assert (Hresp : response (check_results lines true)
                    = filter is_command_response lines).
    { rewrite check_results_response.
      destruct (filter is_command_response lines); [contradiction | reflexivity]. }
    rewrite Hresp. split; [| split].
    + intros E. rewrite E in Hin. contradiction.
    + apply Forall_forall. intros l Hl. apply filter_In in Hl. apply Hl.
    + rewrite Hlines, filter_last_kept by exact Hframed.
      specialize (Hnoerr _ Hin). unfold completion in Hfinal.
      unfold is_error_response in Hnoerr. rewrite Hnoerr, orb_false_r in Hfinal.
      exact Hfinal.
Qed.

(** An acknowledged [reg on] behind one telemetry line. *)
Lemma success_means_acknowledged_witness :
  let nl := String LF "" in
  let u := mk_uart "" [""; "T,91.2,0" ++ nl ++ ">>reg on" ++ nl ++ "<<OK" ++ nl] None [] in
  exists r u',
    send_command "reg on" 5 u = Some (r, u')
    /\ response r = [">>reg on"; "<<OK"]
    /\ (success r = true <-> error r = None).
Proof.
  intros nl u.
  destruct (send_command "reg on" 5 u) as [[r u'] |] eqn:E;
    [| vm_compute in E; discriminate].
  exists r, u'. split; [reflexivity |]. split.
  - vm_compute in E. injection E as <- _. reflexivity.
  - apply (success_means_acknowledged "reg on" 5 u u' r E).
Defined.

(** X2: the reported lines are never mixed: either every one starts with
    '<<' or '>>', or none does; and a line starting with '<<OK' or
    '<<ERROR' can only be the last reported line. *)
Theorem response_framing (cmd : string) (polls : nat)
    (u u' : uart) (r : result)
    (Hrun : send_command cmd polls u = Some (r, u')) :
  (Forall (fun l => (startswith l "<<" || startswith l ">>") = true) (response r)
   \/ Forall (fun l => (startswith l "<<" || startswith l ">>") = false) (response r))
  /\ (forall l, In l (response r) ->
        (startswith l "<<OK" || startswith l "<<ERROR") = true ->
        l = last (response r) "").
Proof.
  destruct (send_command_cases _ _ _ _ _ Hrun)
    as [[e ->] | (raws & lines & found & Hcol & ->)].
  - cbn. split; [left; constructor | intros l []].
  - pose proof (collected_completion _ _ _ Hcol) as [Hfound Hlast].
    split.
    + destruct (check_results_framing lines found) as [[H _] | [H _]];
        [left | right]; exact H.
    + intros l Hin Hl.
      pose proof (check_results_response_incl _ _ _ Hin) as Hin'.
      pose proof (Hlast l Hin' Hl) as Hl_last.
      destruct (check_results_framing lines found) as [[_ E] | [_ E]].
      * rewrite E. destruct found.
        -- destruct Hcol as (Hlines & _ & init & final & Hraws & _ & Hfinal).
           cbn [app] in Hlines. rewrite Hraws, map_app in Hlines. cbn [map] in Hlines.
           rewrite Hlines in Hl_last |- *. rewrite last_last in Hl_last.
           rewrite filter_last_kept
             by (apply completion_is_command_response, Hfinal).
           exact Hl_last.
        -- destruct Hfound as [_ Hf]. assert (false = true); [| discriminate].
           apply Hf. eauto.
      * rewrite check_results_response, E in Hin |- *. exact Hl_last.
Qed.

(** Telemetry only, no framed line: the response is reported unfiltered. *)
Lemma response_framing_witness :
  let nl := String LF "" in
  let u := mk_uart "" [""; "T,91.2,0" ++ nl; "T,91.3,0" ++ nl] None [] in
  exists r u',
    send_command "status" 5 u = Some (r, u')
    /\ response r = ["T,91.2,0"; "T,91.3,0"]
    /\ Forall (fun l => (startswith l "<<" || startswith l ">>") = false) (response r).
Proof.
  intros nl u.
  destruct (send_command "status" 5 u) as [[r u'] |] eqn:E;
    [| vm_compute in E; discriminate].
  exists r, u'. split; [reflexivity |].
  assert (Hr : response r = ["T,91.2,0"; "T,91.3,0"])
    by (vm_compute in E; injection E as <- _; reflexivity).
  split; [exact Hr |].
  destruct (response_framing "status" 5 u u' r E) as [[H | H] _]; [| exact H].
  rewrite Hr in H. inversion H as [| ? ? Hbad _]. vm_compute in Hbad. discriminate.
Defined.

Section Budget.

Lemma length_append (a b : string) :
  String.length (a ++ b) = (String.length a + String.length b)%nat.
Proof. induction a as [| c a IH]; cbn; [reflexivity | now rewrite IH]. Qed.

(** [transfer] step by step: the buffer is cleared, the command written,
    and only a complete write is followed by the read loop. *)
Lemma transfer_steps (c : string) (polls : nat) (u : uart) :
  let buf := c ++ String LF "" in
  let n := accepted u buf in
  exists u1 flush_ops,
    clear_buffer u = Some (tt, u1)
    /\ log u1 = (rev (flush_ops ++ [OpAny 0]) ++ log u)%list
    /\ Forall (fun op => flush_op op = true) flush_ops
    /\ transfer c polls u
       = if (n =? String.length buf)%nat
         then read_loop polls [] (record (OpWrite buf n) u1)
         else Some (Failed ("Write incomplete: " ++ show_nat n ++ "/"
                            ++ show_nat (String.length buf) ++ " bytes"),
                    record (OpWrite buf n) u1).
Proof.
  intros buf n.
  destruct (clear_loop_spec (2 + List.length (wire u)) u)
    as (u1 & k & fops & Hclear & _ & _ & _ & Hroom1 & Hlog1 & Hfops & _).
  { destruct (rx u); lia. }
  exists u1, fops. split; [exact Hclear |]. split; [exact Hlog1 |].
  split; [exact Hfops |].
  unfold transfer, bind. fold buf. unfold clear_buffer in *. rewrite Hclear.
  unfold uart_write.
  replace (match room u1 with
           | None => String.length buf
           | Some k0 => Nat.min k0 (String.length buf)
           end) with n by (subst n; unfold accepted; now rewrite Hroom1).
  destruct (n =? String.length buf)%nat; reflexivity.
Qed.

(** One turn of the read loop reads one line at most. *)
Lemma read_loop_budget (polls : nat) : forall lines0 u out u',
  read_loop polls lines0 u = Some (out, u') ->
  (List.length (lines_read (log u')) <= List.length (lines_read (log u)) + polls)%nat
  /\ match out with
     | Collected lines _ => (List.length lines <= List.length lines0 + polls)%nat
     | Failed _ => True
     end.
Proof.
  induction polls as [| polls IH]; intros lines0 u out u' Hrun.
  - cbn in Hrun. unfold ret in Hrun. injection Hrun as <- <-. split; lia.
  - cbn [read_loop] in Hrun. unfold bind, uart_any in Hrun.
    set (a := arrive u) in *. set (n := String.length (rx a)) in *.
    assert (Hla : lines_read (log a) = lines_read (log u))
      by (subst a; now rewrite arrive_log).
    destruct (n =? 0)%nat.
    + apply IH in Hrun as [H1 H2]. unfold record in H1. cbn [log lines_read] in H1.
      rewrite Hla in H1. split; [lia |]. destruct out; [exact I | lia].
    + unfold uart_readline, record in Hrun. cbn [rx wire room log] in Hrun.
      destruct (rx a) as [| c0 s0] eqn:Erx.
      * apply IH in Hrun as [H1 H2]. cbn [log lines_read] in H1.
        rewrite Hla in H1. split; [lia |]. destruct out; [exact I | lia].
      * destruct (cut_line_spec (String c0 s0)) as (c & l & r & Hcut & _);
          [discriminate |].
        rewrite Hcut in Hrun.
        destruct (decode (String c l)) as [text |].
        -- destruct (completion (strip text)).
           ++ unfold ret in Hrun. injection Hrun as <- <-.
              cbn [log lines_read List.length]. rewrite Hla, length_app. cbn. split; lia.
           ++ apply IH in Hrun as [H1 H2]. cbn [log lines_read List.length] in H1.
              rewrite Hla in H1. split; [lia |].
              destruct out; [exact I |]. rewrite length_app in H2. cbn in H2. lia.
        -- unfold ret in Hrun. injection Hrun as <- <-.
           cbn [log lines_read List.length]. rewrite Hla. split; [lia | exact I].
Qed.

Lemma filter_length_le {A : Type} (p : A -> bool) (l : list A) :
  (List.length (filter p l) <= List.length l)%nat.
Proof.
  induction l as [| x l IH]; cbn; [lia |]. destruct (p x); cbn; lia.
Qed.

Lemma lines_read_rev_length (ops : list uart_op) :
  List.length (lines_read (rev ops)) = List.length (lines_read ops).
Proof.
  induction ops as [| op ops IH]; [reflexivity |].
  cbn [rev]. rewrite lines_read_app, length_app, IH.
  destruct op; cbn; lia.
Qed.

End Budget.

(** X3: when the port accepts fewer bytes than the command line has, the
    exchange fails with "Write incomplete: k/len bytes" and an empty
    response, and nothing is read after the write: the log ends with the
    clearing operations and the one write. *)
Theorem short_write_aborts (cmd : string) (polls k : nat) (u : uart)
    (Hcmd : strip cmd <> "")
    (Hroom : room u = Some k)
    (Hshort : (k < String.length (strip cmd ++ String LF ""))%nat) :
  let buf := strip cmd ++ String LF "" in
  exists u' flush_ops,
    send_command cmd polls u
    = Some (mk_result false []
              (Some ("Write incomplete: " ++ show_nat k ++ "/"
                     ++ show_nat (String.length buf) ++ " bytes")), u')
    /\ log u' = (rev (flush_ops ++ [OpAny 0; OpWrite buf k]) ++ log u)%list
    /\ Forall (fun op => flush_op op = true) flush_ops
    /\ lines_read (flush_ops ++ [OpAny 0; OpWrite buf k]) = [].
Proof.
  intros buf.
  destruct (transfer_steps (strip cmd) polls u) as (u1 & fops & _ & Hlog1 & Hf & Ht).
  fold buf in Ht.
  assert (Hn : accepted u buf = k).
  { unfold accepted. rewrite Hroom. apply Nat.min_l. subst buf. lia. }
  rewrite Hn in Ht.
  assert (Hne : (k =? String.length buf)%nat = false)
    by (apply Nat.eqb_neq; subst buf; lia).
  rewrite Hne in Ht.
  exists (record (OpWrite buf k) u1), fops.
  split; [rewrite send_command_nonempty by exact Hcmd; rewrite Ht; reflexivity |].
  split; [| split; [exact Hf |]].
  - unfold record. cbn [log]. rewrite Hlog1.
    rewrite !rev_app_distr. cbn [rev app]. reflexivity.
  - rewrite lines_read_app, (flush_ops_no_lines _ Hf). reflexivity.
Qed.

(** The port takes 3 of the 7 bytes of "status\n". *)
Lemma short_write_aborts_witness :
  let u := mk_uart "" [""; "<<OK" ++ String LF ""] (Some 3%nat) [] in
  exists u',
    send_command "status" 5 u
    = Some (mk_result false [] (Some "Write incomplete: 3/7 bytes"), u').
Proof.
  intros u.
  destruct (short_write_aborts "status" 5 3 u) as (u' & fops & H & _).
  - vm_compute. discriminate.
  - reflexivity.
  - vm_compute. lia.
  - exists u'. exact H.
Defined.

(** X4: an exchange reads at most one line per turn of its read loop: it
    adds at most [polls] line reads to the log and reports at most [polls]
    lines. *)
Theorem exchange_bounded_by_polls (cmd : string) (polls : nat)
    (u u' : uart) (r : result)
    (Hrun : send_command cmd polls u = Some (r, u')) :
  (List.length (response r) <= polls)%nat
  /\ (List.length (lines_read (rev (log u')))
      <= List.length (lines_read (rev (log u))) + polls)%nat.
Proof.
  rewrite !lines_read_rev_length.
  destruct (string_dec (strip cmd) "") as [E | Hne].
  - unfold send_command in Hrun. rewrite E in Hrun. cbn in Hrun.
    unfold ret in Hrun. injection Hrun as <- <-. cbn. lia.
  - rewrite send_command_nonempty in Hrun by exact Hne.
    destruct (transfer_steps (strip cmd) polls u) as (u1 & fops & _ & Hlog1 & Hf & Ht).
    cbv zeta in Ht. rewrite Ht in Hrun. clear Ht.
    set (buf := strip cmd ++ String LF "") in *.
    set (n := accepted u buf) in *.
    assert (H1 : List.length (lines_read (log (record (OpWrite buf n) u1)))
                 = List.length (lines_read (log u))).
    { unfold record. cbn [log lines_read]. rewrite Hlog1.
      rewrite lines_read_app, length_app, lines_read_rev_length.
      rewrite lines_read_app, (flush_ops_no_lines _ Hf). reflexivity. }
    destruct (n =? String.length buf)%nat.
    + destruct (read_loop polls [] (record (OpWrite buf n) u1))
        as [[out u2] |] eqn:Eloop; [| discriminate].
      injection Hrun as <- <-.
      apply read_loop_budget in Eloop as [Hb Hl]. rewrite H1 in Hb.
      split; [| exact Hb].
      destruct out as [e | lines found]; cbn [result_of response]; [cbn; lia |].
      rewrite check_results_response. cbn in Hl.
      pose proof (filter_length_le is_command_response lines).
      destruct (filter is_command_response lines); lia.
    + injection Hrun as <- <-. cbn [result_of response]. rewrite H1. cbn. lia.
Qed.

(** Three lines arrive but the budget allows two turns. *)
Lemma exchange_bounded_by_polls_witness :
  let nl := String LF "" in
  let u := mk_uart "" [""; ">>a" ++ nl ++ ">>b" ++ nl ++ "<<OK" ++ nl] None [] in
  exists r u',
    send_command "status" 2 u = Some (r, u')
    /\ response r = [">>a"; ">>b"]
    /\ (List.length (response r) <= 2)%nat.
Proof.
  intros nl u.
  destruct (send_command "status" 2 u) as [[r u'] |] eqn:E;
    [| vm_compute in E; discriminate].
  exists r, u'. split; [reflexivity |]. split.
  - vm_compute in E. injection E as <- _. reflexivity.
  - apply (exchange_bounded_by_polls "status" 2 u u' r E).
Defined.

(** ** Text handling in the exchange and the parsers *)

Section Whitespace.

Lemma rstrip_cons (c : ascii) (s : string) :
  rstrip (String c s)
  = match rstrip s with
    | "" => if is_space c then "" else String c ""
    | r => String c r
    end.
Proof. reflexivity. Qed.

Lemma rstrip_idem (s : string) : rstrip (rstrip s) = rstrip s.
Proof.
  induction s as [| c s IH]; [reflexivity |].
  rewrite rstrip_cons. destruct (rstrip s) as [| d r] eqn:E.
  - destruct (is_space c) eqn:Ec; [reflexivity |].
    rewrite rstrip_cons. cbn [rstrip]. rewrite Ec. reflexivity.
  - rewrite rstrip_cons, IH. reflexivity.
Qed.

Lemma lstrip_head (s : string) :
  lstrip s = "" \/ exists c t, lstrip s = String c t /\ is_space c = false.
Proof.
  induction s as [| c s IH]; [left; reflexivity |].
  cbn [lstrip]. destruct (is_space c) eqn:Ec; [exact IH |].
  right. eauto.
Qed.

(** Stripping from the right keeps a first character that is no space. *)
Lemma rstrip_keeps_head (c : ascii) (t : string) :
  is_space c = false -> exists t', rstrip (String c t) = String c t'.
Proof.
  intros Hc. rewrite rstrip_cons. destruct (rstrip t); [rewrite Hc |]; eauto.
Qed.

Lemma strip_idem (s : string) : strip (strip s) = strip s.
Proof.
  unfold strip. destruct (lstrip_head s) as [E | (c & t & E & Hc)].
  - rewrite E. reflexivity.
  - rewrite E. destruct (rstrip_keeps_head c t Hc) as [t' Ht'].
    assert (Hl : lstrip (rstrip (String c t)) = rstrip (String c t))
      by (rewrite Ht'; cbn [lstrip]; now rewrite Hc).
    rewrite Hl. apply rstrip_idem.
Qed.

Lemma strip_keeps_head (c : ascii) (t : string) :
  is_space c = false -> exists t', strip (String c t) = String c t'.
Proof.
  intros Hc. unfold strip. cbn [lstrip]. rewrite Hc.
  apply rstrip_keeps_head, Hc.
Qed.

End Whitespace.

(** X5: blanks around a command do not matter: [send_command] on [cmd]
    and on [cmd] stripped are the same exchange, so the second strip after
    the one the POST handler already did changes nothing. *)
Theorem send_command_ignores_outer_blanks (cmd : string) (polls : nat) (u : uart) :
  send_command cmd polls u = send_command (strip cmd) polls u
  /\ strip (strip cmd) = strip cmd.
Proof.
  split; [| apply strip_idem].
  unfold send_command. rewrite strip_idem. reflexivity.
Qed.

Section Fields.

Lemma response_framing_cases (cmd : string) (polls : nat)
    (u u' : uart) (r : result) :
  send_command cmd polls u = Some (r, u') ->
  Forall (fun l => is_command_response l = true) (response r)
  \/ Forall (fun l => is_command_response l = false) (response r).
Proof.
  intros Hrun.
  destruct (send_command_cases _ _ _ _ _ Hrun)
    as [[e ->] | (raws & lines & found & _ & ->)].
  - left. constructor.
  - destruct (check_results_framing lines found) as [[H _] | [H _]];
      [left | right]; exact H.
Qed.

Lemma string_of_list_ascii_app (a b : list ascii) :
  string_of_list_ascii (a ++ b)%list
  = string_of_list_ascii a ++ string_of_list_ascii b.
Proof. induction a as [| x a IH]; cbn; [reflexivity | now rewrite IH]. Qed.

(** The first field of a split starts with what the scan already holds. *)
Lemma split_scan_first (sep : string) (s : string) : forall skip cur,
  exists f rest,
    split_scan sep skip cur s = (string_of_list_ascii (rev cur) ++ f) :: rest.
Proof.
  induction s as [| c s IH]; intros skip cur.
  - exists "", []. cbn. now rewrite append_nil_r.
  - cbn [split_scan]. destruct skip as [| k]; [| apply IH].
    destruct (prefix sep (String c s)).
    + exists "", (split_scan sep (String.length sep - 1) [] s).
      now rewrite append_nil_r.
    + destruct (IH 0%nat (c :: cur)) as (f & rest & H). rewrite H.
      exists (String c f), rest. cbn [rev].
      rewrite string_of_list_ascii_app, append_assoc. reflexivity.
Qed.

Lemma split_nonempty (sep s : string) : (1 <= List.length (split sep s))%nat.
Proof.
  unfold split. destruct (split_scan_first sep s 0 []) as (f & rest & H).
  rewrite H. cbn. lia.
Qed.

(** No number starts with '<' or '>'. *)
Lemma py_float_angle (c : ascii) (t : string) :
  c = "<"%char \/ c = ">"%char -> py_float (String c t) = None.
Proof.
  intros Hc. unfold py_float.
  destruct (strip_keeps_head c t) as [t' Ht'];
    [destruct Hc as [-> | ->]; reflexivity |].
  rewrite Ht'. destruct Hc as [-> | ->]; reflexivity.
Qed.

(** A line that starts with '<<' or '>>' is no CSV reading. *)
Lemma new_format_framed (line : string) :
  is_command_response line = true -> new_format line = None.
Proof.
  intros H.
  assert (Hhead : exists c t, line = String c t /\ (c = "<"%char \/ c = ">"%char)).
  { unfold is_command_response, startswith in H.
    apply orb_true_iff in H as [H | H]; apply prefix_append in H as [t ->];
      cbn [append]; eauto. }
  destruct Hhead as (c & t & -> & Hc).
  unfold new_format. cbv zeta.
  assert (Hsplit : exists f rest, split "," (String c t) = String c f :: rest).
  { unfold split. cbn [split_scan].
    assert (Hp : prefix "," (String c t) = false)
      by (destruct Hc as [-> | ->]; reflexivity).
    rewrite Hp. destruct (split_scan_first "," t 0 [c]) as (f & rest & E).
    rewrite E. cbn. eauto. }
  destruct Hsplit as (f & rest & ->).
  destruct (3 <=? _)%nat; [| reflexivity].
  unfold item. cbn [nth]. rewrite (py_float_angle c f Hc). reflexivity.
Qed.

Lemma framed_not_tagged (line tag : string) (c : ascii) :
  is_command_response line = true ->
  c <> "<"%char -> c <> ">"%char ->
  startswith line (String c tag) = false.
Proof.
  intros H Hlt Hgt. unfold startswith.
  destruct (prefix (String c tag) line) eqn:E; [| reflexivity].
  apply prefix_append in E as [t ->].
  unfold is_command_response, startswith in H.
  apply orb_true_iff in H as [H | H]; apply prefix_append in H as [t' H];
    cbn [append] in H; congruence.
Qed.

Lemma first_old_format_origin (lines : list string) (st : status) :
  first_old_format lines = Some st ->
  In (raw st) lines
  /\ (startswith (raw st) ">>STATUS" || startswith (raw st) "STATUS") = true.
Proof.
  induction lines as [| line rest IH]; [discriminate |].
  cbn [first_old_format]. destruct (old_format line) as [st' |] eqn:E.
  - intros [= ->]. unfold old_format in E.
    destruct (startswith line ">>STATUS" || startswith line "STATUS") eqn:Ep;
      [| discriminate].
    unfold status_fields in E. cbv zeta in E.
    destruct (5 <=? _)%nat; [| discriminate].
    destruct (py_float _); [| discriminate].
    destruct (py_float _); [| discriminate].
    destruct (py_int _); [| discriminate].
    injection E as <-. cbn [raw]. split; [left; reflexivity | exact Ep].
  - intros H. destruct (IH H) as [Hin Hp]. split; [right; exact Hin | exact Hp].
Qed.

Lemma new_format_origin (line : string) (st : status) :
  new_format line = Some st -> raw st = line /\ state st = "unknown".
Proof.
  unfold new_format. cbv zeta.
  destruct (3 <=? _)%nat; [| discriminate].
  destruct (py_float _); [| discriminate].
  destruct (py_int _); [| discriminate].
  destruct (py_float _); [| discriminate].
  intros [= <-]. split; reflexivity.
Qed.

Lemma last_in {A : Type} (l : list A) (d : A) : l <> [] -> In (last l d) l.
Proof.
  induction l as [| x l IH]; [contradiction |]. intros _.
  destruct l as [| y l]; [left; reflexivity |].
  right. apply IH. discriminate.
Qed.

End Fields.

(** X6: a status is always read off one of the response lines, kept in
    its [raw] field: either a line starting with 'STATUS' or '>>STATUS',
    or the last line, and then the state is "unknown". *)
Theorem parse_status_origin (r : result) (st : status)
    (Hst : parse_status r = Some st) :
  In (raw st) (response r)
  /\ ((startswith (raw st) ">>STATUS" || startswith (raw st) "STATUS") = true
      \/ (raw st = last (response r) "" /\ state st = "unknown")).
Proof.
  destruct r as [ok lines err]. cbn [response].
  assert (Hne : lines <> []) by (intros ->; discriminate).
  rewrite parse_status_nonempty in Hst by exact Hne.
  destruct (first_old_format lines) as [st' |] eqn:E.
  - injection Hst as ->. destruct (first_old_format_origin _ _ E) as [Hin Hp].
    split; [exact Hin | left; exact Hp].
  - destruct (new_format_origin _ _ Hst) as [Hraw Hstate].
    split; [rewrite Hraw; apply last_in, Hne | right; split; assumption].
Qed.

(** The reading is taken from the last of three telemetry lines. *)
Lemma parse_status_origin_witness :
  let r := mk_result false ["90.1,40,108.0"; "90.7,41,108.0"; "91.2,42,108.0"]
             (Some "Response incomplete (timeout)") in
  exists st, parse_status r = Some st
             /\ raw st = "91.2,42,108.0" /\ In (raw st) (response r).
Proof.
  intros r.
  destruct (parse_status r) as [st |] eqn:E; [| vm_compute in E; discriminate].
  exists st. split; [reflexivity |]. split.
  - vm_compute in E. injection E as <-. reflexivity.
  - apply (parse_status_origin r st E).
Defined.

(** X7: once an exchange reports a line starting with '<<' or '>>' (as
    every successful exchange does), the CSV fallback of [parse_status]
    cannot apply: a status can only come from a '>>STATUS' line. *)
Theorem framed_response_skips_csv (cmd : string) (polls : nat)
    (u u' : uart) (r : result)
    (Hrun : send_command cmd polls u = Some (r, u'))
    (Hframed : exists l, In l (response r)
                         /\ (startswith l "<<" || startswith l ">>") = true) :
  new_format (last (response r) "") = None
  /\ parse_status r = first_old_format (response r)
  /\ (forall st, parse_status r = Some st ->
        startswith (raw st) ">>STATUS" = true).
Proof.
  destruct Hframed as (l0 & Hl0 & Hf0).
  assert (Hall : Forall (fun l => is_command_response l = true) (response r)).
  { destruct (response_framing_cases cmd polls u u' r Hrun) as [H | H]; [exact H |].
    rewrite Forall_forall in H. specialize (H l0 Hl0).
    unfold is_command_response in H. congruence. }
  assert (Hne : response r <> []) by (intros E; rewrite E in Hl0; contradiction).
  assert (Hlast : new_format (last (response r) "") = None).
  { apply new_format_framed. rewrite Forall_forall in Hall.
    apply Hall, last_in, Hne. }
  assert (Hparse : parse_status r = first_old_format (response r)).
  { destruct r as [ok lines err]. cbn [response] in *.
    rewrite parse_status_nonempty by exact Hne. rewrite Hlast.
    destruct (first_old_format lines); reflexivity. }
  split; [exact Hlast |]. split; [exact Hparse |].
  intros st Hst. rewrite Hparse in Hst.
  destruct (first_old_format_origin _ _ Hst) as [Hin Hp].
  rewrite Forall_forall in Hall. specialize (Hall _ Hin).
  rewrite (framed_not_tagged (raw st) "TATUS" "S" Hall) in Hp
    by discriminate.
  rewrite orb_false_r in Hp. exact Hp.
Qed.

(** A successful status poll: the status comes from the '>>STATUS' line. *)
Lemma framed_response_skips_csv_witness :
  let nl := String LF "" in
  let u := mk_uart "" [""; "93.4,42,108.0" ++ nl
                           ++ ">>STATUS,93.4,108.0,42,heating" ++ nl
                           ++ "<<OK" ++ nl] None [] in
  exists r u' st,
    send_command "status" 5 u = Some (r, u')
    /\ parse_status r = Some st
    /\ startswith (raw st) ">>STATUS" = true.
Proof.
  intros nl u.
  destruct (send_command "status" 5 u) as [[r u'] |] eqn:E;
    [| vm_compute in E; discriminate].
  assert (Hr : r = mk_result true [">>STATUS,93.4,108.0,42,heating"; "<<OK"] None)
    by (vm_compute in E; injection E as <- _; reflexivity).
  destruct (parse_status r) as [st |] eqn:Est;
    [| rewrite Hr in Est; vm_compute in Est; discriminate].
  exists r, u', st. split; [reflexivity |]. split; [exact Est |].
  destruct (framed_response_skips_csv "status" 5 u u' r E) as (_ & _ & H).
  - exists "<<OK". rewrite Hr. split; [right; left; reflexivity | reflexivity].
  - apply H, Est.
Defined.

Section Temperature.

Lemma parse_temp_nonempty (ok : bool) (lines : list string) (err : option string) :
  parse_temp (mk_result ok lines err) = first_temp lines.
Proof. unfold parse_temp. cbn [response]. destruct lines; reflexivity. Qed.

(** A line starting with 'TEMP,' always has a second field. *)
Lemma temp_line_fields (line : string) :
  startswith line "TEMP," = true -> (2 <= List.length (split "," line))%nat.
Proof.
  unfold startswith. intros H. apply prefix_append in H as [t ->].
  unfold split. cbn [append split_scan prefix].
  destruct t as [| c t].
  - cbn. lia.
  - cbn -[split_scan]. pose proof (split_nonempty "," (String c t)) as Hn.
    unfold split in Hn. cbn [List.length]. lia.
Qed.

Lemma first_temp_skip (pre : list string) (rest : list string) :
  Forall (fun x => startswith x "TEMP," = false) pre ->
  first_temp (pre ++ rest)%list = first_temp rest.
Proof.
  induction 1 as [| x pre Hx _ IH]; [reflexivity |].
  cbn [app first_temp]. rewrite Hx. exact IH.
Qed.

End Temperature.

(** X8: [parse_temp] is decided by the first line that starts with
    'TEMP,': the result is the float of its second field, and when that
    field is no number the result is no temperature, whatever follows;
    without such a line there is no temperature either. *)
Theorem parse_temp_first_line (ok : bool) (err : option string)
    (pre post : list string) (line : string)
    (Hpre : Forall (fun x => startswith x "TEMP," = false) pre) :
  (startswith line "TEMP," = true ->
     parse_temp (mk_result ok (pre ++ line :: post)%list err)
     = py_float (item (split "," line) 1))
  /\ parse_temp (mk_result ok pre err) = None
  /\ parse_temp (mk_result ok ["TEMP,hot"; "TEMP,93.4"] err) = None
  /\ parse_temp (mk_result ok ["T,1,2"; "TEMP,93.4,x"] err) = Some (decimal 934 (-1)).
Proof.
  split; [| split; [| split]].
  - intros Hline. rewrite parse_temp_nonempty, first_temp_skip by exact Hpre.
    cbn [first_temp]. rewrite Hline.
    pose proof (temp_line_fields line Hline) as Hlen.
    apply Nat.leb_le in Hlen. rewrite Hlen. reflexivity.
  - rewrite parse_temp_nonempty.
    rewrite <- (app_nil_r pre), first_temp_skip by exact Hpre. reflexivity.
  - vm_compute. reflexivity.
  - vm_compute. reflexivity.
Qed.

(** A temperature line behind an acknowledgement. *)
Lemma parse_temp_first_line_witness :
  parse_temp (mk_result true ["<<OK"; "TEMP,93.4"] None) = Some (decimal 934 (-1)).
Proof.
  pose proof (parse_temp_first_line true None ["<<OK"] [] "TEMP,93.4") as [H _].
  - repeat constructor.
  - exact (H eq_refl).
Defined.

(** X9: [parse_temp] finds nothing in the result of an exchange that
    reports a line starting with '<<' or '>>': the reported lines are then
    all framed, and none can start with 'TEMP,'.  In particular it finds
    nothing after a successful exchange. *)
Theorem parse_temp_blind_to_framed (cmd : string) (polls : nat)
    (u u' : uart) (r : result)
    (Hrun : send_command cmd polls u = Some (r, u')) :
  ((exists l, In l (response r)
              /\ (startswith l "<<" || startswith l ">>") = true) ->
   parse_temp r = None)
  /\ (success r = true -> parse_temp r = None).
Proof.
  assert (Hall : Forall (fun l => is_command_response l = true) (response r) ->
                 parse_temp r = None).
  { intros Hall. destruct r as [ok lines err]. cbn [response] in Hall.
    rewrite parse_temp_nonempty.
    rewrite <- (app_nil_r lines), first_temp_skip; [reflexivity |].
    apply Forall_forall. intros x Hx. rewrite Forall_forall in Hall.
    apply framed_not_tagged; [apply Hall, Hx | discriminate | discriminate]. }
  assert (Hframed : (exists l, In l (response r)
                               /\ (startswith l "<<" || startswith l ">>") = true) ->
                    parse_temp r = None).
  { intros (l0 & Hl0 & Hf0). apply Hall.
    destruct (response_framing_cases cmd polls u u' r Hrun) as [H | H]; [exact H |].
    rewrite Forall_forall in H. specialize (H l0 Hl0).
    unfold is_command_response in H. congruence. }
  split; [exact Hframed |].
  intros Hs. apply Hframed.
  destruct (send_command_cases _ _ _ _ _ Hrun)
    as [[e ->] | (raws & lines & found & Hcol & ->)]; [discriminate |].
  pose proof (collected_completion _ _ _ Hcol) as [Hfound _].
  pose proof (check_results_contract _ _ _ Hcol) as (Hsucc & _).
  cbv zeta in Hsucc. apply Hsucc in Hs as [(l & Hin & Hl) _].
  exists l. split; [| apply completion_is_command_response, Hl].
  rewrite check_results_response.
  assert (Hk : In l (filter is_command_response lines))
    by (apply filter_In; split;
        [exact Hin | apply completion_is_command_response, Hl]).
  destruct (filter is_command_response lines); [contradiction | exact Hk].
Qed.

(** The controller answers [temp] with a TEMP line and an acknowledgement:
    the TEMP line is filtered out before [parse_temp] sees it. *)
Lemma parse_temp_blind_to_framed_witness :
  let nl := String LF "" in
  let u := mk_uart "" [""; "TEMP,93.4" ++ nl ++ "<<OK" ++ nl] None [] in
  exists r u',
    send_command "temp" 5 u = Some (r, u')
    /\ success r = true /\ parse_temp r = None.
Proof.
  intros nl u.
  destruct (send_command "temp" 5 u) as [[r u'] |] eqn:E;
    [| vm_compute in E; discriminate].
  assert (Hs : success r = true)
    by (vm_compute in E; injection E as <- _; reflexivity).
  exists r, u'. split; [reflexivity |]. split; [exact Hs |].
  apply (parse_temp_blind_to_framed "temp" 5 u u' r E), Hs.
Defined.

(** ** Schedule engine, continued *)

(** X10: within a year DST is one unbroken stretch of dates: a date
    between two DST dates (ordered by month, then day) is a DST date. *)
Theorem dst_is_one_interval (year m1 d1 m2 d2 m3 d3 : Z)
    (H12 : m1 < m2 \/ (m1 = m2 /\ d1 <= d2))
    (H23 : m2 < m3 \/ (m2 = m3 /\ d2 <= d3))
    (Hfirst : is_dst year m1 d1 = true)
    (Hlast : is_dst year m3 d3 = true) :
  is_dst year m2 d2 = true.
Proof.
  unfold is_dst in *. cbv zeta in *.
  set (s := get_nth_weekday_of_month year 3 6 2) in *.
  set (e := get_nth_weekday_of_month year 11 6 1) in *.
  destruct (m1 <? 3) eqn:A1; destruct (11 <? m1) eqn:B1; cbn [orb] in Hfirst;
    try discriminate.
  destruct (m3 <? 3) eqn:A3; destruct (11 <? m3) eqn:B3; cbn [orb] in Hlast;
    try discriminate.
  destruct (m2 <? 3) eqn:A2; [lia |].
  destruct (11 <? m2) eqn:B2; [lia |]. cbn [orb].
  destruct (3 <? m2) eqn:C2; destruct (m2 <? 11) eqn:D2; cbn [andb];
    try reflexivity.
  - assert (m2 = 11) by lia. subst m2.
    destruct (11 =? 3) eqn:X; [lia |].
    assert (m3 = 11) by lia. subst m3. cbn in Hlast. lia.
  - assert (m2 = 3) by lia. subst m2. cbn.
    assert (m1 = 3) by lia. subst m1. cbn in Hfirst. lia.
  - lia.
Qed.

(** In 2025 DST runs from 9 March to 1 November; 4 July lies between. *)
Lemma dst_is_one_interval_witness : is_dst 2025 7 4 = true.
Proof.
  apply (dst_is_one_interval 2025 3 9 7 4 11 1); try reflexivity; lia.
Defined.

(** X11: for a weekday in 0..6 the days of a month that fall on it are
    exactly first, first + 7, first + 14, ... where first, in 1..7, is what
    the rule gives for n = 1; the rule gives first + 7 (n - 1) for n, so
    its result is the n-th such day.  The length of the month is not
    checked: the 5th Sunday of February 2024 comes out as day 32. *)
Theorem nth_weekday_is_nth (year month wd : Z) (Hwd : 0 <= wd < 7) :
  let first := get_nth_weekday_of_month year month wd 1 in
  1 <= first <= 7
  /\ (forall n, get_nth_weekday_of_month year month wd n = first + 7 * (n - 1))
  /\ (forall d, 1 <= d ->
        (Time.weekday year month d = wd <-> exists j, 0 <= j /\ d = first + 7 * j))
  /\ get_nth_weekday_of_month 2024 2 6 5 = 32.
Proof.
  intros first.
  pose proof (nth_weekday_correct year month wd 1 Hwd) as [Hw Hr].
  cbv zeta in Hw, Hr. fold first in Hw, Hr.
  split; [lia |]. split; [| split; [| reflexivity]].
  - intros n. subst first. unfold get_nth_weekday_of_month. cbv zeta. lia.
  - intros d Hd. rewrite (weekday_shift year month d).
    rewrite (weekday_shift year month first) in Hw.
    pose proof (localtime_wday_range (Time.mktime year month 1 0 0 0)) as Hfw.
    rewrite first_weekday_is_weekday in Hfw.
    set (fw := Time.weekday year month 1) in *.
    split.
    + intros H. exists ((d - first) / 7).
      assert (Hm : (d - first) mod 7 = 0).
      { rewrite <- H in Hw.
        rewrite Zminus_mod.
        replace (d mod 7) with ((d - 1 + 1) mod 7) by (f_equal; lia).
        replace (first mod 7) with ((first - 1 + 1) mod 7) by (f_equal; lia).
        rewrite (Zplus_mod (d - 1) 1), (Zplus_mod (first - 1) 1).
        assert (Hx : (d - 1) mod 7 = (first - 1) mod 7).
        { assert (Hy : (fw + (d - 1) - (fw + (first - 1))) mod 7 = 0)
            by (rewrite Zminus_mod, Hw, Z.sub_diag; reflexivity).
          replace (fw + (d - 1) - (fw + (first - 1)))
            with ((d - 1) - (first - 1)) in Hy by lia.
          rewrite Zminus_mod in Hy.
          pose proof (Z.mod_pos_bound (d - 1) 7 ltac:(lia)).
          pose proof (Z.mod_pos_bound (first - 1) 7 ltac:(lia)).
          destruct (Z.eq_dec ((d - 1) mod 7) ((first - 1) mod 7)) as [|Hne];
            [assumption |].
          exfalso.
          assert (Hs : -7 < (d - 1) mod 7 - (first - 1) mod 7 < 7) by lia.
          destruct (Z_lt_le_dec ((d - 1) mod 7 - (first - 1) mod 7) 0).
          - rewrite <- (Z.mod_add _ 1 7) in Hy by lia.
            rewrite Z.mod_small in Hy by lia. lia.
          - rewrite Z.mod_small in Hy by lia. lia. }
        rewrite Hx, Z.sub_diag. reflexivity. }
      pose proof (Z.div_mod (d - first) 7 ltac:(lia)) as Hdm.
      rewrite Hm in Hdm. split; [| lia].
      apply Z.div_pos; [| lia].
      destruct (Z_lt_le_dec (d - first) 0); [| lia].
      exfalso. rewrite <- (Z.mod_add _ 1 7) in Hm by lia.
      rewrite Z.mod_small in Hm by lia. lia.
    + intros (j & Hj & ->). rewrite <- Hw.
      replace (fw + (first + 7 * j - 1)) with (fw + (first - 1) + j * 7) by lia.
      apply Z.mod_add. lia.
Qed.

(** The Sundays of March 2025 are the 2nd, 9th, 16th, 23rd and 30th. *)
Lemma nth_weekday_is_nth_witness :
  get_nth_weekday_of_month 2025 3 6 1 = 2
  /\ (Time.weekday 2025 3 23 = 6 <-> exists j, 0 <= j /\ 23 = 2 + 7 * j).
Proof.
  split; [reflexivity |].
  pose proof (nth_weekday_is_nth 2025 3 6 ltac:(lia)) as (_ & _ & H & _).
  apply (H 23). lia.
Defined.

Section TimeString.

Lemma fmt_02d_width (n : Z) : 0 <= n < 100 -> String.length (fmt_02d n) = 2%nat.
Proof.
  intros Hn.
  assert (Hall : forallb (fun k => (String.length (fmt_02d (Z.of_nat k)) =? 2)%nat)
                   (seq 0 100) = true) by (vm_compute; reflexivity).
  rewrite forallb_forall in Hall.
  specialize (Hall (Z.to_nat n)).
  rewrite Z2Nat.id in Hall by lia.
  apply Nat.eqb_eq, Hall, in_seq. lia.
Qed.

End TimeString.

(** X12: the time string ends in "PDT" exactly when the DST predicate
    holds for the date read inside [get_timezone_offset()], else in "PST";
    its hour is the local hour, and for minutes and seconds in 0..59 it has
    the shape HH:MM:SS TZ, twelve characters long. *)
Theorem local_time_str_shape (utc_time utc_time' : struct_time)
    (Hmin : 0 <= tm_min utc_time <= 59) (Hsec : 0 <= tm_sec utc_time <= 59) :
  let tz := if is_dst (tm_year utc_time') (tm_mon utc_time') (tm_mday utc_time')
            then "PDT" else "PST" in
  get_local_time_str utc_time utc_time'
  = fmt_02d (get_local_hour utc_time utc_time') ++ ":"
    ++ fmt_02d (tm_min utc_time) ++ ":" ++ fmt_02d (tm_sec utc_time) ++ " " ++ tz
  /\ String.length (fmt_02d (get_local_hour utc_time utc_time')) = 2%nat
  /\ String.length (fmt_02d (tm_min utc_time)) = 2%nat
  /\ String.length (fmt_02d (tm_sec utc_time)) = 2%nat
  /\ String.length (get_local_time_str utc_time utc_time') = 12%nat.
Proof.
  intros tz.
  assert (Hh : 0 <= get_local_hour utc_time utc_time' < 100).
  { unfold get_local_hour, local_hour_from. cbv zeta.
    pose proof (Z.mod_pos_bound
                  (tm_hour utc_time
                   + timezone_offset_from BASE_TIMEZONE_OFFSET utc_time') 24
                  ltac:(lia)). lia. }
  assert (Heq : get_local_time_str utc_time utc_time'
                = fmt_02d (get_local_hour utc_time utc_time') ++ ":"
                  ++ fmt_02d (tm_min utc_time) ++ ":"
                  ++ fmt_02d (tm_sec utc_time) ++ " " ++ tz).
  { unfold get_local_time_str, get_local_hour, local_hour_from,
      get_timezone_offset, timezone_offset_from, BASE_TIMEZONE_OFFSET. cbv zeta.
    subst tz. destruct (is_dst _ _ _); reflexivity. }
  pose proof (fmt_02d_width _ Hh) as Lh.
  pose proof (fmt_02d_width (tm_min utc_time) ltac:(lia)) as Lm.
  pose proof (fmt_02d_width (tm_sec utc_time) ltac:(lia)) as Ls.
  split; [exact Heq |]. split; [exact Lh |]. split; [exact Lm |].
  split; [exact Ls |].
  rewrite Heq, !length_append, Lh, Lm, Ls.
  subst tz. destruct (is_dst _ _ _); reflexivity.
Qed.

(** 03:07:09 UTC on 4 July 2025 is shown as 20:07:09 PDT. *)
Lemma local_time_str_shape_witness :
  let t := mk_time 2025 7 4 3 7 9 4 185 in
  get_local_time_str t t = "20:07:09 PDT"
  /\ String.length (get_local_time_str t t) = 12%nat.
Proof.
  intros t. split; [vm_compute; reflexivity |].
  apply (local_time_str_shape t t); cbn; lia.
Defined.

Section Sync.

Lemma sync_time_cases (settime_ok : nat -> bool) :
  sync_time settime_ok
  = if settime_ok 0%nat then (true, [Settime true])
    else if settime_ok 1%nat then (true, [Settime false; Sleep2; Settime true])
    else if settime_ok 2%nat
         then (true, [Settime false; Sleep2; Settime false; Sleep2; Settime true])
         else (false, [Settime false; Sleep2; Settime false; Sleep2; Settime false]).
Proof.
  unfold sync_time. cbn [seq sync_attempts].
  destruct (settime_ok 0%nat); [reflexivity |].
  destruct (settime_ok 1%nat); [reflexivity |].
  destruct (settime_ok 2%nat); reflexivity.
Qed.

End Sync.

(** X13: [sync_time] makes at most three calls of [ntptime.settime()] and
    stops at the first that returns; it reports success exactly when one
    of them returns; every failed call but the third is followed by one
    2-second sleep, so it never sleeps after its last call, and the calls
    after a success are never made. *)
Theorem sync_time_retries (settime_ok : nat -> bool) :
  let (synced, actions) := sync_time settime_ok in
  let calls := filter (fun a => match a with Settime _ => true | Sleep2 => false end)
                 actions in
  let sleeps := filter (fun a => match a with Sleep2 => true | Settime _ => false end)
                  actions in
  (synced = true <-> exists k, (k < 3)%nat /\ settime_ok k = true)
  /\ (1 <= List.length calls <= 3)%nat
  /\ calls = map (fun k => Settime (settime_ok k)) (seq 0 (List.length calls))
  /\ (forall k, (S k < List.length calls)%nat -> settime_ok k = false)
  /\ (synced = true -> List.length sleeps = (List.length calls - 1)%nat
                       /\ last actions Sleep2 = Settime true)
  /\ (synced = false -> List.length sleeps = 2%nat
                        /\ last actions Sleep2 = Settime false).
Proof.
  rewrite sync_time_cases.
  destruct (settime_ok 0%nat) eqn:E0;
    [| destruct (settime_ok 1%nat) eqn:E1;
       [| destruct (settime_ok 2%nat) eqn:E2]];
    cbn [filter List.length map seq last];
    rewrite ?E0, ?E1, ?E2;
    (split; [| split; [lia | split; [reflexivity | split; [| split]]]]).
  - split; [intros _; exists 0%nat; split; [lia | exact E0] | reflexivity].
  - intros k Hk. lia.
  - intros _. split; reflexivity.
  - discriminate.
  - split; [intros _; exists 1%nat; split; [lia | exact E1] | reflexivity].
  - intros k Hk. assert (k = 0)%nat by lia. subst k. exact E0.
  - intros _. split; reflexivity.
  - discriminate.
  - split; [intros _; exists 2%nat; split; [lia | exact E2] | reflexivity].
  - intros k Hk. assert (k = 0 \/ k = 1)%nat as [-> | ->] by lia; assumption.
  - intros _. split; reflexivity.
  - discriminate.
  - split; [discriminate |]. intros (k & Hk & Hok).
    assert (k = 0 \/ k = 1 \/ k = 2)%nat as [-> | [-> | ->]] by lia; congruence.
  - intros k Hk. assert (k = 0 \/ k = 1)%nat as [-> | ->] by lia; assumption.
  - discriminate.
  - intros _. split; reflexivity.
Qed.

(** ** Control server, continued *)

Section RequestBody.

Lemma drop_append (a b : string) : drop (String.length a) (a ++ b) = b.
Proof. induction a as [| c a IH]; [destruct b; reflexivity | exact IH]. Qed.

Lemma find_from_le (sub a b : string) : forall i,
  find_from sub (a ++ sub ++ b) i <= i + Z.of_nat (String.length a).
Proof.
  induction a as [| c a IH]; intros i.
  - cbn [append String.length].
    assert (H : prefix sub (sub ++ b) = true) by (apply prefix_append; eauto).
    destruct (sub ++ b); cbn [find_from]; rewrite H; lia.
  - cbn [append find_from String.length].
    destruct (prefix sub (String c (a ++ sub ++ b))); [lia |].
    specialize (IH (i + 1)). lia.
Qed.

Lemma find_from_present_or_absent (sub s : string) : forall i,
  0 <= i -> find_from sub s i = -1 \/ i <= find_from sub s i.
Proof.
  induction s as [| c s IH]; intros i Hi; cbn [find_from].
  - destruct (prefix sub ""); [right; lia | left; reflexivity].
  - destruct (prefix sub (String c s)); [right; lia |].
    destruct (IH (i + 1) ltac:(lia)) as [H | H]; [left; exact H | right; lia].
Qed.

(** Where [find] points, the text splits around the occurrence. *)
Lemma find_from_split (sub s : string) : forall i0 i,
  find_from sub s i0 = i -> i <> -1 -> 0 <= i0 ->
  exists a,
    s = a ++ sub ++ drop (Z.to_nat (i - i0) + String.length sub) s
    /\ Z.of_nat (String.length a) = i - i0.
Proof.
  induction s as [| c s IH]; intros i0 i Hfind Hi Hi0.
  - cbn [find_from] in Hfind. destruct (prefix sub "") eqn:E; [| lia].
    apply prefix_append in E as [t Ht]. subst i. exists "".
    rewrite Z.sub_diag. cbn [Z.to_nat Nat.add append String.length].
    split; [| reflexivity].
    rewrite Ht at 2. rewrite drop_append. exact Ht.
  - cbn [find_from] in Hfind. destruct (prefix sub (String c s)) eqn:E.
    + apply prefix_append in E as [t Ht]. subst i. exists "".
      rewrite Z.sub_diag. cbn [Z.to_nat Nat.add append String.length].
      split; [| reflexivity].
      rewrite Ht at 2. rewrite drop_append. exact Ht.
    + destruct (find_from_present_or_absent sub s (i0 + 1) ltac:(lia)) as [Hge | Hge];
        [congruence |].
      rewrite Hfind in Hge.
      destruct (IH (i0 + 1) i Hfind Hi ltac:(lia)) as (a & Hs & Hlen).
      exists (String c a). split.
      * cbn [append]. f_equal.
        replace (Z.to_nat (i - i0) + String.length sub)%nat
          with (S (Z.to_nat (i - (i0 + 1)) + String.length sub)) by lia.
        cbn [drop]. exact Hs.
      * cbn [String.length]. lia.
Qed.

End RequestBody.

(** X14: a POST /cmd request with a blank line splits at the first one
    into headers and body; the stripped body is run as one exchange and
    the reply is always "HTTP/1.1 200 OK" with {success, response} of that
    exchange (its error text is not sent).  A blank body runs no exchange:
    the port is left as it was and the reply is {false, []}. *)
Theorem cmd_route_runs_body (polls : nat) (request : string)
    (rest : list string) (u : uart)
    (Hroute : split " " (hd "" (split CRLF request)) = "POST" :: "/cmd" :: rest)
    (Hsep : find request CRLFCRLF <> -1) :
  exists headers body resp u',
    request = headers ++ CRLFCRLF ++ body
    /\ (forall a b, request = a ++ CRLFCRLF ++ b ->
          (String.length headers <= String.length a)%nat)
    /\ send_command (strip body) polls u = Some (resp, u')
    /\ handle_request polls request u
       = Some ([mk_reply JSON_HEAD
                  (Json (JDict [("success", JBool (success resp));
                                ("response", JList (map JStr (response resp)))]))],
               u')
    /\ hd "" (split CRLF JSON_HEAD) = "HTTP/1.1 200 OK"
    /\ (strip body = "" -> u' = u /\ success resp = false /\ response resp = []).
Proof.
  destruct (route_request_line _ _ _ _ Hroute) as (line & others & Hlines & Hparts).
  destruct (find_from_split CRLFCRLF request 0 (find request CRLFCRLF) eq_refl Hsep
              ltac:(lia)) as (headers & Hsplit & Hlen).
  set (i := find request CRLFCRLF) in *.
  set (body := drop (Z.to_nat (i - 0) + String.length CRLFCRLF) request) in *.
  assert (Hbody : slice_from request (i + 4) = body).
  { unfold slice_from. subst body. f_equal. cbn [String.length CRLFCRLF CRLF append]. lia. }
  destruct (send_command_total (strip body) polls u) as (resp & u' & Hsend).
  exists headers, body, resp, u'.
  split; [exact Hsplit |]. split; [| split; [exact Hsend |]].
  { intros a b Hab. pose proof (find_from_le CRLFCRLF a b 0) as Hle.
    rewrite <- Hab in Hle. fold (find request CRLFCRLF) in Hle. fold i in Hle. lia. }
  split; [| split; [vm_compute; reflexivity |]].
  - unfold handle_request. rewrite Hlines, Hparts.
    cbn [List.length Nat.leb item nth]. cbn [String.eqb Ascii.eqb Bool.eqb andb].
    fold i. destruct (i =? -1) eqn:E; [lia |].
    rewrite Hbody. unfold bind. rewrite Hsend. reflexivity.
  - intros Hblank. unfold send_command in Hsend. rewrite strip_idem, Hblank in Hsend.
    cbn in Hsend. unfold ret in Hsend. injection Hsend as <- <-.
    repeat split.
Qed.

(** The page's [reg coffee 107] button, acknowledged by the controller. *)
Lemma cmd_route_runs_body_witness :
  let request := "POST /cmd HTTP/1.1" ++ CRLF ++ "Host: silvia" ++ CRLFCRLF
                 ++ "reg coffee 107" in
  let u := mk_uart "" [""; "<<OK" ++ String LF ""] None [] in
  exists u',
    handle_request 5 request u
    = Some ([mk_reply JSON_HEAD
               (Json (JDict [("success", JBool true);
                             ("response", JList [JStr "<<OK"])]))], u').
Proof.
  intros request u.
  destruct (cmd_route_runs_body 5 request ["HTTP/1.1"] u)
    as (headers & body & resp & u' & _ & _ & _ & Hrun & _).
  - vm_compute. reflexivity.
  - vm_compute. discriminate.
  - assert (Hc : exists u0,
               handle_request 5 request u
               = Some ([mk_reply JSON_HEAD
                          (Json (JDict [("success", JBool true);
                                        ("response", JList [JStr "<<OK"])]))], u0))
      by (eexists; vm_compute; reflexivity).
    destruct Hc as [u0 Hc]. exists u'. rewrite Hrun in Hc |- *. congruence.
Defined.

(** X15: only GET /status and POST /cmd reach the serial port.  Any other
    request leaves the port exactly as it was: GET / is answered with the
    page, everything else (another route, a request line with fewer than
    two tokens, an empty request) with nothing; a failed receive or bytes
    that do not decode are answered with nothing either. *)
Theorem other_requests_leave_port (polls : nat) (request : string) (u : uart) :
  let parts := split " " (hd "" (split CRLF request)) in
  let method := item parts 0 in
  let path := item parts 1 in
  (~ (method = "GET" /\ path = "/status") ->
   ~ (method = "POST" /\ path = "/cmd") ->
   handle_request polls request u
   = Some (if ((method =? "GET") && (path =? "/"))%string
           then [mk_reply HTML_HEAD Page] else [], u))
  /\ handle_client polls None u = Some ([], u)
  /\ (forall data, decode data = None ->
        handle_client polls (Some data) u = Some ([], u)).
Proof.
  intros parts method path. split; [| split].
  - intros Hstatus Hcmd. unfold handle_request.
    destruct (split CRLF request) as [| line others] eqn:El.
    + reflexivity.
    + cbn [hd] in parts. fold parts. fold method. fold path.
      destruct (2 <=? List.length parts)%nat eqn:Elen.
      * destruct (method =? "GET")%string eqn:Eg;
          destruct (path =? "/")%string eqn:E1; cbn [andb]; try reflexivity;
          destruct (path =? "/status")%string eqn:E2; cbn [andb];
          try reflexivity;
          try (apply String.eqb_eq in Eg; apply String.eqb_eq in E2;
               exfalso; apply Hstatus; split; assumption);
          destruct (method =? "POST")%string eqn:Ep; cbn [andb]; try reflexivity;
          destruct (path =? "/cmd")%string eqn:E3; cbn [andb]; try reflexivity;
          apply String.eqb_eq in Ep; apply String.eqb_eq in E3;
          exfalso; apply Hcmd; split; assumption.
      * apply Nat.leb_gt in Elen.
        assert (Hpath : path = "").
        { subst path. unfold item. destruct parts as [| p0 [| p1 ps]];
            [reflexivity | reflexivity | cbn in Elen; lia]. }
        rewrite Hpath. rewrite andb_false_r. reflexivity.
  - reflexivity.
  - intros data Hdec. unfold handle_client. rewrite Hdec. reflexivity.
Qed.

(** A request for the page, and one for a route that is not served. *)
Lemma other_requests_leave_port_witness :
  let u := mk_uart "T,90.0,0" ["<<OK" ++ String LF ""] None [] in
  handle_request 5 ("GET / HTTP/1.1" ++ CRLFCRLF) u
  = Some ([mk_reply HTML_HEAD Page], u)
  /\ handle_request 5 ("GET /favicon.ico HTTP/1.1" ++ CRLFCRLF) u = Some ([], u).
Proof.
  intros u. split.
  - pose proof (other_requests_leave_port 5 ("GET / HTTP/1.1" ++ CRLFCRLF) u)
      as [H _].
    apply H; vm_compute; intros [_ H']; discriminate.
  - pose proof (other_requests_leave_port 5 ("GET /favicon.ico HTTP/1.1" ++ CRLFCRLF) u)
      as [H _].
    apply H; vm_compute; intros [H1 H2]; discriminate.
Defined.

Section Serving.

Lemma handle_request_total (polls : nat) (request : string) (u : uart) :
  exists replies u', handle_request polls request u = Some (replies, u').
Proof.
  unfold handle_request.
  destruct (split CRLF request) as [| line others]; [unfold ret; eauto |].
  destruct (2 <=? _)%nat; [| unfold ret; eauto].
  destruct (_ && _); [unfold ret; eauto |].
  destruct (_ && _).
  { unfold bind. destruct (send_command_total "status" polls u) as (r & u' & ->).
    unfold ret. eauto. }
  destruct (_ && _); [| unfold ret; eauto].
  destruct (_ =? -1); [unfold ret; eauto |].
  unfold bind.
  match goal with
  | |- context [send_command ?c polls u] =>
      destruct (send_command_total c polls u) as (r & u' & ->)
  end.
  unfold ret. eauto.
Qed.

Lemma handle_client_total (polls : nat) (received : option string) (u : uart) :
  exists replies u', handle_client polls received u = Some (replies, u').
Proof.
  unfold handle_client. destruct received as [data |]; [| unfold ret; eauto].
  destruct (decode data); [apply handle_request_total | unfold ret; eauto].
Qed.

(** Turns that let the loop go on are all served, one after the other. *)
Lemma serve_through (polls : nat) (done : list turn) : forall rest u,
  Forall (fun t => turn_continues t = true) done ->
  exists served u1,
    serve polls done u = Some (false, served, u1)
    /\ serve polls (done ++ rest)%list u
       = match serve polls rest u1 with
         | Some (stopped, later, u') => Some (stopped, served ++ later, u')%list
         | None => None
         end.
Proof.
  induction done as [| t done IH]; intros rest u Hall.
  - exists [], u. split; [reflexivity |]. cbn [app].
    destruct (serve polls rest u) as [[[stopped later] u'] |]; reflexivity.
  - inversion Hall as [| ? ? Ht Hdone]; subst.
    cbn [app serve]. unfold turn_continues in Ht.
    destruct (arrives t) as [| received].
    + apply andb_true_iff in Ht as [H1 H2]. rewrite H1, H2. cbn [negb].
      apply IH, Hdone.
    + rewrite Ht. cbn [negb]. unfold bind.
      destruct (handle_client_total polls received u) as (replies & u0 & ->).
      destruct (IH rest u0 Hdone) as (served & u1 & Hs & Happ).
      exists (replies :: served), u1. rewrite Hs, Happ. unfold ret. cbn [fst snd].
      split; [reflexivity |].
      destruct (serve polls rest u1) as [[[stopped later] u'] |]; reflexivity.
Qed.

End Serving.

(** X16: the serving loop ends itself.  As long as every check of the
    hours succeeds it keeps serving, one client at a time.  At the first
    turn with a failed check it stops and never looks at a later turn; a
    client accepted in that very turn is still handled to the end and gets
    its replies. *)
Theorem server_stops_at_window_end (polls : nat) (done rest : list turn)
    (t : turn) (u : uart)
    (Hdone : Forall (fun t => turn_continues t = true) done)
    (Hstop : turn_continues t = false) :
  exists served u1,
    serve polls done u = Some (false, served, u1)
    /\ match arrives t with
       | AcceptTimeout =>
           serve polls (done ++ t :: rest)%list u = Some (true, served, u1)
       | Client received =>
           exists replies u',
             handle_client polls received u1 = Some (replies, u')
             /\ serve polls (done ++ t :: rest)%list u
                = Some (true, served ++ [replies], u')%list
       end.
Proof.
  destruct (serve_through polls done (t :: rest) u Hdone) as (served & u1 & Hs & Happ).
  exists served, u1. split; [exact Hs |].
  rewrite Happ. cbn [serve]. unfold turn_continues in Hstop.
  destruct (arrives t) as [| received].
  - destruct (wifi_hours_at (on_timeout t)); cbn [negb andb] in *.
    + rewrite Hstop. cbn [negb]. unfold ret. now rewrite app_nil_r.
    + unfold ret. now rewrite app_nil_r.
  - rewrite Hstop. cbn [negb]. unfold bind.
    destruct (handle_client_total polls received u1) as (replies & u' & Hh).
    rewrite Hh. exists replies, u'. split; [reflexivity |]. reflexivity.
Qed.

(** A status poll at 07:59 local time, then a page request accepted after
    08:00: the page is still sent, and the request behind it is not read. *)
Lemma server_stops_at_window_end_witness :
  let before := mk_time 2025 1 15 15 59 0 2 15 in
  let after := mk_time 2025 1 15 16 0 1 2 15 in
  let poll := mk_turn (Client (Some ("GET /status HTTP/1.1" ++ CRLFCRLF)))
                (before, before) (before, before) in
  let page := mk_turn (Client (Some ("GET / HTTP/1.1" ++ CRLFCRLF)))
                (after, after) (after, after) in
  let u := mk_uart "" [] None [] in
  exists served u',
    serve 2 [poll; page; poll] u = Some (true, served, u')
    /\ List.length served = 2%nat
    /\ last served [] = [mk_reply HTML_HEAD Page].
Proof.
  intros before after poll page u.
  destruct (server_stops_at_window_end 2 [poll] [poll] page u)
    as (served & u1 & Hs & replies & u' & Hh & Hrun).
  - repeat constructor.
  - reflexivity.
  - exists (served ++ [replies])%list, u'. split; [exact Hrun |].
    assert (Hserved : List.length served = 1%nat)
      by (vm_compute in Hs; injection Hs as <- _; reflexivity).
    assert (Hreplies : replies = [mk_reply HTML_HEAD Page]).
    { vm_compute in Hs. injection Hs as _ <-.
      vm_compute in Hh. injection Hh as <- _. reflexivity. }
    split; [rewrite length_app, Hserved; reflexivity |].
    rewrite last_last. exact Hreplies.
Defined.

(** ** WiFi management *)

Section Radio.

Variable net : network.

Lemma connects_app (a b : list wlan_op) :
  connects (a ++ b)%list = (connects a + connects b)%nat.
Proof. unfold connects. now rewrite filter_app, length_app. Qed.

(** The readiness loop only polls the status, [ready_polls] times at most. *)
Lemma ready_loop_log (ready_polls : nat) : forall w,
  exists new,
    calls (snd (ready_loop ready_polls w)) = (new ++ calls w)%list
    /\ Forall (fun op => is_wstatus op = true) new
    /\ (List.length new <= ready_polls)%nat.
Proof.
  induction ready_polls as [| n IH]; intros w.
  - exists []. cbn. repeat split; [constructor | lia].
  - cbn [ready_loop]. unfold wbind, wlan_status.
    set (w1 := wlog _ _).
    assert (H1 : calls w1 = WStatus (status_at w (n_status w)) :: calls w)
      by reflexivity.
    assert (Hrec : exists new,
               calls (snd (ready_loop n w1)) = (new ++ calls w)%list
               /\ Forall (fun op => is_wstatus op = true) new
               /\ (List.length new <= S n)%nat).
    { destruct (IH w1) as (new & Hc & Hf & Hl).
      exists (new ++ [WStatus (status_at w (n_status w))])%list.
      rewrite Hc, H1, <- app_assoc. split; [reflexivity |]. split.
      - apply Forall_app. split; [exact Hf | repeat constructor].
      - rewrite length_app. cbn. lia. }
    destruct (status_at w (n_status w)) as [s |]; [| exact Hrec].
    destruct (s =? -1); [exact Hrec |].
    exists [WStatus (Some s)]. cbn. repeat split; [repeat constructor | lia].
Qed.

Lemma wait_for_wifi_ready_log (ready_polls : nat) (w : wlan) :
  exists new,
    calls (snd (wait_for_wifi_ready ready_polls w)) = (new ++ calls w)%list
    /\ connects new = 0%nat.
Proof.
  unfold wait_for_wifi_ready, wbind, wlan_active.
  assert (Hst : forall ops, Forall (fun op => is_wstatus op = true) ops ->
                            connects ops = 0%nat).
  { induction 1 as [| op ops Hop _ IH]; [reflexivity |].
    destruct op; try discriminate. exact IH. }
  destruct (powered w); cbn [wret wlan_activate].
  - destruct (ready_loop_log ready_polls (wlog (WActive true) w)) as (new & Hc & Hf & _).
    exists (new ++ [WActive true])%list.
    rewrite Hc, <- app_assoc. split; [reflexivity |].
    rewrite connects_app, (Hst _ Hf). reflexivity.
  - match goal with
    | |- context [ready_loop ready_polls ?w1] =>
        destruct (ready_loop_log ready_polls w1) as (new & Hc & Hf & _)
    end.
    exists (new ++ [WActivate true; WActive false])%list.
    rewrite Hc, <- app_assoc. split; [reflexivity |].
    rewrite connects_app, (Hst _ Hf). reflexivity.
Qed.

(** The wait of one attempt makes no connect call. *)
Lemma wait_connected_log (timeout : nat) : forall w,
  exists new,
    calls (snd (wait_connected net timeout w)) = (new ++ calls w)%list
    /\ connects new = 0%nat.
Proof.
  induction timeout as [| t IH]; intros w; cbn [wait_connected];
    unfold wbind, wlan_isconnected; set (w1 := wlog _ _);
    destruct (connected_at w (n_connected w)) eqn:Ec.
  - exists [WIsConnected true]. split; reflexivity.
  - exists [WIsConnected false]. split; reflexivity.
  - exists [WIsConnected true]. split; reflexivity.
  - unfold wlan_status. set (w2 := wlog _ _).
    assert (H2 : calls w2
                 = WStatus (status_at w1 (n_status w1)) :: WIsConnected false :: calls w)
      by reflexivity.
    assert (Hrec : exists new,
               calls (snd (wait_connected net t w2)) = (new ++ calls w)%list
               /\ connects new = 0%nat).
    { destruct (IH w2) as (new & Hc & Hn).
      exists (new ++ [WStatus (status_at w1 (n_status w1)); WIsConnected false])%list.
      rewrite Hc, H2, <- app_assoc. split; [reflexivity |].
      rewrite connects_app, Hn. reflexivity. }
    assert (Hend : exists new, calls w2 = (new ++ calls w)%list /\ connects new = 0%nat).
    { exists [WStatus (status_at w1 (n_status w1)); WIsConnected false].
      split; [exact H2 | reflexivity]. }
    destruct (status_at w1 (n_status w1)) as [s |]; [| exact Hrec].
    destruct (is_status (STAT_WRONG_PASSWORD net) s); [exact Hend |].
    destruct (is_status (STAT_NO_AP_FOUND net) s); [exact Hend | exact Hrec].
Qed.

End Radio.

Section Attempts.

Variable net : network.

Lemma ends_connected_app (new pre : list wlan_op) :
  ends_connected new -> ends_connected (new ++ pre)%list.
Proof.
  intros [earlier [-> | ->]]; exists (earlier ++ pre)%list; [left | right];
    reflexivity.
Qed.

(** What a run made of [pre] and then a run with the stated bound adds up
    to. *)
Lemma run_after (r : bool) (w' w1 w : wlan) (pre : list wlan_op) (k : nat) :
  calls w1 = (pre ++ calls w)%list ->
  (exists new, calls w' = (new ++ calls w1)%list
               /\ (connects new <= k)%nat
               /\ (r = true -> ends_connected new)) ->
  exists new, calls w' = (new ++ calls w)%list
              /\ (connects new <= k + connects pre)%nat
              /\ (r = true -> ends_connected new).
Proof.
  intros H1 (new & Hc & Hk & He). exists (new ++ pre)%list.
  rewrite Hc, H1, <- app_assoc. split; [reflexivity |]. split.
  - rewrite connects_app. lia.
  - intros Hr. apply ends_connected_app, He, Hr.
Qed.

Lemma connect_attempts_log (attempts : list nat) : forall w r w',
  connect_attempts net attempts w = (r, w') ->
  exists new,
    calls w' = (new ++ calls w)%list
    /\ (connects new <= List.length attempts)%nat
    /\ (r = true -> ends_connected new).
Proof.
  induction attempts as [| attempt rest IH]; intros w r w' Hrun.
  - injection Hrun as <- <-. exists []. cbn. repeat split; [lia | discriminate].
  - cbn [connect_attempts] in Hrun. cbv zeta in Hrun.
    set (retry := (if (attempt <? WIFI_CONNECT_RETRIES - 1)%nat
                   then wlan_note WRetryPause else wret tt) ~>
                  connect_attempts net rest) in *.
    assert (Hretry : forall w1 r1 w1',
               retry w1 = (r1, w1') ->
               exists new,
                 calls w1' = (new ++ calls w1)%list
                 /\ (connects new <= List.length rest)%nat
                 /\ (r1 = true -> ends_connected new)).
    { intros w1 r1 w1' H. subst retry. unfold wbind in H.
      destruct (attempt <? WIFI_CONNECT_RETRIES - 1)%nat;
        cbn [wlan_note wret] in H.
      - replace (List.length rest) with (List.length rest + connects [WRetryPause])%nat
          by (cbn; lia).
        apply (run_after r1 w1' (wlog WRetryPause w1) w1 [WRetryPause]);
          [reflexivity | apply IH, H].
      - apply IH, H. }
    clearbody retry.
    unfold wbind at 1 in Hrun. unfold wlan_isconnected at 1 in Hrun.
    cbv beta iota zeta in Hrun.
    destruct (connected_at w (n_connected w)) eqn:Ec.
    { unfold wbind, wlan_note, wret in Hrun. injection Hrun as <- <-.
      exists [WIfconfig; WIsConnected true]. cbn. repeat split; [lia |].
      intros _. exists []. left. reflexivity. }
    set (w1 := wlog (WIsConnected false) _) in Hrun.
    unfold wbind at 1 in Hrun. unfold wlan_status at 1 in Hrun.
    cbv beta iota zeta in Hrun.
    set (st := status_at w1 (n_status w1)) in Hrun.
    set (w2 := wlog (WStatus st) _) in Hrun.
    assert (H2 : calls w2 = ([WStatus st; WIsConnected false] ++ calls w)%list)
      by reflexivity.
    clearbody st.
    unfold wbind at 1 in Hrun.
    set (tidy := match st with
                 | Some s => _
                 | None => wret tt
                 end) in Hrun.
    assert (H3 : exists pre, calls (snd (tidy w2)) = (pre ++ calls w)%list
                             /\ connects pre = 0%nat).
    { subst tidy. destruct st as [s |].
      - destruct (STAT_IDLE net) as [idle |]; [destruct (s =? idle) |];
          cbn [wret wlan_note snd];
          [eexists; split; [exact H2 | reflexivity]
          | eexists (WDisconnect :: _); split;
            [cbn [wlog calls]; rewrite H2; reflexivity | reflexivity]
          | eexists (WDisconnect :: _); split;
            [cbn [wlog calls]; rewrite H2; reflexivity | reflexivity]].
      - cbn [wret snd]. eexists; split; [exact H2 | reflexivity]. }
    clearbody tidy. clearbody w2.
    destruct (tidy w2) as [[] w3]. cbn [snd] in H3.
    destruct H3 as (pre3 & H3 & Hn3).
    unfold wbind at 1 in Hrun. unfold wlan_connect at 1 in Hrun.
    cbv beta iota zeta in Hrun.
    set (ok := connect_ok_at w3 (n_connect w3)) in Hrun.
    set (w4 := wlog (WConnect ok) _) in Hrun.
    assert (H4 : calls w4 = ((WConnect ok :: pre3) ++ calls w)%list)
      by (subst w4; cbn [wlog calls]; rewrite H3; reflexivity).
    assert (Hn4 : connects (WConnect ok :: pre3) = 1%nat)
      by (unfold connects in *; cbn; rewrite Hn3; reflexivity).
    clearbody w4. clearbody ok.
    destruct ok; cbn [negb] in Hrun.
    2: { replace (List.length (attempt :: rest))
           with (List.length rest + connects (WConnect false :: pre3))%nat
           by (rewrite Hn4; cbn; lia).
         apply (run_after r w' w4 w _ _ H4), Hretry, Hrun. }
    unfold wbind at 1 in Hrun.
    destruct (wait_connected_log net WIFI_CONNECT_TIMEOUT w4) as (new5 & H5 & Hn5).
    destruct (wait_connected net WIFI_CONNECT_TIMEOUT w4) as [waited w5].
    cbn [snd] in H5.
    assert (H5' : calls w5 = ((new5 ++ WConnect true :: pre3) ++ calls w)%list)
      by (rewrite H5, H4, <- app_assoc; reflexivity).
    assert (Hn5' : connects (new5 ++ WConnect true :: pre3) = 1%nat)
      by (rewrite connects_app, Hn5, Hn4; reflexivity).
    destruct waited.
    { unfold wret in Hrun. injection Hrun as <- <-.
      eexists. split; [exact H5' |]. split.
      - rewrite Hn5'. cbn. lia.
      - discriminate. }
    unfold wbind at 1 in Hrun. unfold wlan_isconnected at 1 in Hrun.
    cbv beta iota zeta in Hrun.
    destruct (connected_at w5 (n_connected w5)) eqn:Ec5.
    { unfold wbind, wlan_note, wret in Hrun. injection Hrun as <- <-.
      cbn [wlog calls].
      exists (WRssi :: WIfconfig :: WIsConnected true
              :: new5 ++ WConnect true :: pre3)%list.
      split; [rewrite H5'; reflexivity |]. split.
      - change (connects (new5 ++ WConnect true :: pre3) <= S (List.length rest))%nat.
        rewrite Hn5'. lia.
      - intros _. eexists. right. reflexivity. }
    set (w6 := wlog (WIsConnected false) _) in Hrun.
    unfold wbind at 1 in Hrun. unfold wlan_status at 1 in Hrun.
    cbv beta iota zeta in Hrun.
    set (st6 := status_at w6 (n_status w6)) in Hrun.
    set (w7 := wlog (WStatus st6) _) in Hrun.
    assert (H7 : calls w7
                 = ((WStatus st6 :: WIsConnected false
                     :: new5 ++ WConnect true :: pre3) ++ calls w)%list)
      by (subst w7 w6; cbn [wlog calls]; rewrite H5'; reflexivity).
    clearbody w7.
    replace (List.length (attempt :: rest))
      with (List.length rest
            + connects (WStatus st6 :: WIsConnected false
                        :: new5 ++ WConnect true :: pre3))%nat.
    { apply (run_after r w' w7 w _ _ H7), Hretry, Hrun. }
    change (connects (WStatus st6 :: WIsConnected false
                      :: new5 ++ WConnect true :: pre3))
      with (connects (new5 ++ WConnect true :: pre3)).
    rewrite Hn5'. cbn. lia.
Qed.

End Attempts.

(** X17: [connect_wifi_robust] makes at most WIFI_CONNECT_RETRIES (10)
    calls of [wlan.connect], whatever the radio answers, and it reports
    success only when the radio's last answer to [isconnected()] was yes:
    the calls made after that answer are [ifconfig] and, after a fresh
    connection, the signal-strength query. *)
Theorem connect_bounded_and_truthful (net : network) (ready_polls : nat)
    (w w' : wlan) (r : bool)
    (Hrun : connect_wifi_robust net ready_polls w = (r, w')) :
  exists new,
    calls w' = (new ++ calls w)%list
    /\ (connects new <= WIFI_CONNECT_RETRIES)%nat
    /\ (r = true ->
        exists earlier,
          new = WIfconfig :: WIsConnected true :: earlier
          \/ new = WRssi :: WIfconfig :: WIsConnected true :: earlier).
Proof.
  unfold connect_wifi_robust, wbind in Hrun.
  destruct (wait_for_wifi_ready_log ready_polls w) as (pre & Hpre & Hn).
  destruct (wait_for_wifi_ready ready_polls w) as [ready w1]. cbn [snd] in Hpre.
  destruct ready; cbn [negb] in Hrun.
  - apply connect_attempts_log in Hrun.
    destruct (run_after r w' w1 w pre _ Hpre Hrun) as (new & Hc & Hk & He).
    exists new. split; [exact Hc |]. split; [| exact He].
    rewrite Hn, length_seq in Hk. lia.
  - unfold wret in Hrun. injection Hrun as <- <-.
    exists pre. split; [exact Hpre |]. split; [rewrite Hn; lia | discriminate].
Qed.

(** A radio that links up on the third poll of the first attempt. *)
Lemma connect_bounded_and_truthful_witness :
  let net := mk_network (Some 1000) (Some 202) (Some 201) in
  let w := mk_wlan false (fun n => (3 <=? n)%nat) (fun _ => Some 1001)
             (fun _ => true) 0 0 0 [] in
  exists w', connect_wifi_robust net 5 w = (true, w')
             /\ (connects (calls w') <= 10)%nat.
Proof.
  intros net w.
  destruct (connect_wifi_robust net 5 w) as [r w'] eqn:E.
  assert (Hr : r = true) by (vm_compute in E; congruence).
  subst r. exists w'. split; [reflexivity |].
  destruct (connect_bounded_and_truthful net 5 w w' true E) as (new & Hc & Hk & _).
  rewrite Hc. cbn [calls w]. rewrite app_nil_r. exact Hk.
Defined.

Section Scenarios.

Variable net : network.

Lemma ready_loop_never (ready_polls : nat) : forall w,
  (forall n, (n < ready_polls)%nat ->
             status_at w (n_status w + n) = Some (-1)
             \/ status_at w (n_status w + n) = None) ->
  exists w',
    ready_loop ready_polls w = (false, w')
    /\ exists new,
         calls w' = (new ++ calls w)%list
         /\ Forall (fun op => is_wstatus op = true) new
         /\ List.length new = ready_polls
         /\ powered w' = powered w.
Proof.
  induction ready_polls as [| n IH]; intros w Hbad.
  - exists w. split; [reflexivity |]. exists []. repeat split. constructor.
  - cbn [ready_loop]. unfold wbind, wlan_status.
    set (a := status_at w (n_status w)).
    set (w1 := wlog (WStatus a) _).
    assert (Hrec : exists w',
               ready_loop n w1 = (false, w')
               /\ exists new,
                    calls w' = (new ++ calls w)%list
                    /\ Forall (fun op => is_wstatus op = true) new
                    /\ List.length new = S n
                    /\ powered w' = powered w).
    { destruct (IH w1) as (w' & Hrun & new & Hc & Hf & Hl & Hp).
      - intros k Hk. subst w1. cbn [wlog status_at n_status].
        replace (S (n_status w) + k)%nat with (n_status w + S k)%nat by lia.
        apply Hbad. lia.
      - exists w'. split; [exact Hrun |].
        exists (new ++ [WStatus a])%list. rewrite Hc. subst w1.
        cbn [wlog calls]. rewrite <- app_assoc. split; [reflexivity |].
        split; [apply Forall_app; split; [exact Hf | repeat constructor] |].
        split; [rewrite length_app; cbn; lia | exact Hp]. }
    specialize (Hbad 0%nat ltac:(lia)). rewrite Nat.add_0_r in Hbad. fold a in Hbad.
    destruct Hbad as [-> | ->]; [cbn [Z.eqb Pos.eqb] |]; exact Hrec.
Qed.

End Scenarios.

(** X18: while the radio's status stays at -1 or its status query raises,
    [connect_wifi_robust] gives up when the readiness wait is over: it
    returns failure having powered the radio and polled its status once per
    turn, without a single [isconnected] or [connect] call. *)
Theorem radio_not_ready_no_attempt (net : network) (ready_polls : nat) (w : wlan)
    (Hbad : forall n, (n < ready_polls)%nat ->
                      status_at w (n_status w + n) = Some (-1)
                      \/ status_at w (n_status w + n) = None) :
  exists w' polls_made,
    connect_wifi_robust net ready_polls w = (false, w')
    /\ powered w' = true
    /\ rev (calls w')
       = (rev (calls w)
          ++ WActive (powered w)
             :: (if powered w then [] else [WActivate true]) ++ polls_made)%list
    /\ Forall (fun op => is_wstatus op = true) polls_made
    /\ List.length polls_made = ready_polls.
Proof.
  unfold connect_wifi_robust, wait_for_wifi_ready, wbind, wlan_active.
  destruct (powered w) eqn:Ep; cbn [wret wlan_activate].
  - destruct (ready_loop_never ready_polls (wlog (WActive true) w))
      as (w' & Hrun & new & Hc & Hf & Hl & Hp); [exact Hbad |].
    rewrite Hrun. cbn [negb wret].
    exists w', (rev new). split; [reflexivity |].
    split; [rewrite Hp; exact Ep |]. split; [| split].
    + rewrite Hc. cbn [wlog calls]. rewrite rev_app_distr. cbn [rev app].
      rewrite <- app_assoc. reflexivity.
    + apply Forall_rev, Hf.
    + rewrite length_rev. exact Hl.
  - match goal with
    | |- context [ready_loop ready_polls ?w1] =>
        destruct (ready_loop_never ready_polls w1)
          as (w' & Hrun & new & Hc & Hf & Hl & Hp); [exact Hbad |]
    end.
    rewrite Hrun. cbn [negb wret].
    exists w', (rev new). split; [reflexivity |].
    split; [rewrite Hp; reflexivity |]. split; [| split].
    + rewrite Hc. cbn [wlog calls]. rewrite rev_app_distr. cbn [rev app].
      rewrite <- !app_assoc. reflexivity.
    + apply Forall_rev, Hf.
    + rewrite length_rev. exact Hl.
Qed.

(** A radio whose status query raises on every other call. *)
Lemma radio_not_ready_no_attempt_witness :
  let net := mk_network (Some 1000) (Some 202) (Some 201) in
  let w := mk_wlan false (fun _ => true)
             (fun n => if Nat.even n then Some (-1) else None)
             (fun _ => true) 0 0 0 [] in
  exists w', connect_wifi_robust net 4 w = (false, w')
             /\ List.length (calls w') = 6%nat.
Proof.
  intros net w.
  destruct (radio_not_ready_no_attempt net 4 w)
    as (w' & polls_made & Hrun & _ & Hlog & _ & Hlen).
  - intros n _. cbn [status_at n_status w Nat.add]. destruct (Nat.even n); auto.
  - exists w'. split; [exact Hrun |].
    rewrite <- length_rev, Hlog. cbn. rewrite Hlen. reflexivity.
Defined.

Section WrongPassword.

Variable net : network.
Variable pw : Z.
Hypothesis Hpw : STAT_WRONG_PASSWORD net = Some pw.



End WrongPassword.

Section ReadyRadio.

(** A radio whose first status answer is not -1 is ready at once. *)
Lemma ready_at_first_poll (n : nat) (w : wlan) (s : Z) :
  status_at w (n_status w) = Some s -> s <> -1 ->
  exists w1,
    wait_for_wifi_ready (S n) w = (true, w1)
    /\ calls w1
       = (WStatus (Some s) :: (if powered w then [] else [WActivate true])
          ++ WActive (powered w) :: calls w)%list
    /\ connected_at w1 = connected_at w /\ status_at w1 = status_at w
    /\ connect_ok_at w1 = connect_ok_at w
    /\ n_connected w1 = n_connected w /\ n_connect w1 = n_connect w
    /\ n_status w1 = S (n_status w).
Proof.
  intros Hs Hne. apply Z.eqb_neq in Hne.
  unfold wait_for_wifi_ready, wbind, wlan_active.
  destruct (powered w); cbn [wret wlan_activate ready_loop];
    unfold wbind, wlan_status;
    cbn [wlog powered connected_at status_at connect_ok_at n_connected n_status
           n_connect calls];
    rewrite Hs, Hne; unfold wret; eexists; repeat split.
Qed.

End ReadyRadio.



(** X20: a radio that is ready and already connected is left alone:
    [connect_wifi_robust] returns success after one status poll and one
    [isconnected()] query, without any [connect] or [disconnect] call. *)
Theorem already_connected_no_reconnect (net : network) (ready_polls : nat)
    (w : wlan) (s : Z)
    (Hpolls : (0 < ready_polls)%nat)
    (Hready : status_at w (n_status w) = Some s)
    (Hvalue : s <> -1)
    (Hconnected : connected_at w (n_connected w) = true) :
  exists w',
    connect_wifi_robust net ready_polls w = (true, w')
    /\ rev (calls w')
       = (rev (calls w)
          ++ WActive (powered w) :: (if powered w then [] else [WActivate true])
          ++ [WStatus (Some s); WIsConnected true; WIfconfig])%list.
Proof.
  destruct ready_polls as [| n]; [lia |].
  destruct (ready_at_first_poll n w s Hready Hvalue)
    as (w1 & Hrun1 & Hcalls1 & Hc & _ & _ & Hnc & _).
  unfold connect_wifi_robust, wbind. rewrite Hrun1. cbn [negb].
  change (seq 0 WIFI_CONNECT_RETRIES) with (0%nat :: seq 1 9).
  cbn [connect_attempts]. cbv zeta. unfold wbind at 1.
  unfold wlan_isconnected at 1. rewrite Hc, Hnc, Hconnected.
  unfold wbind, wlan_note, wret. eexists. split; [reflexivity |].
  cbn [wlog calls]. rewrite Hcalls1.
  destruct (powered w); cbn [app rev]; rewrite <- ?app_assoc; reflexivity.
Qed.

(** The hourly time resync finds the link still up. *)
Lemma already_connected_no_reconnect_witness :
  let net := mk_network (Some 1000) (Some 202) (Some 201) in
  let w := mk_wlan true (fun _ => true) (fun _ => Some 1010) (fun _ => true)
             0 0 0 [] in
  exists w', connect_wifi_robust net 5 w = (true, w')
             /\ rev (calls w')
                = [WActive true; WStatus (Some 1010); WIsConnected true; WIfconfig].
Proof.
  intros net w.
  destruct (already_connected_no_reconnect net 5 w 1010) as (w' & Hrun & Hlog);
    try reflexivity; try lia.
  exists w'. split; [exact Hrun | exact Hlog].
Defined.
